(** * Sign-up form: validation schema, field array and submit handler

    A shallow embedding of [src/components/auth/sign-up-form.tsx].

    The component is glue over three libraries (yup, react-hook-form and
    React) and three collaborators of the application (the auth client,
    the user-session hook and the router).  The libraries are embedded by
    the behaviour the component relies on, operator by operator, in the
    modules [Js] and [yup] and in the form-controller part of the section;
    the collaborators are variables of the section.

    Conventions:
    - a JavaScript string is a [string]; its [length] is the number of
      characters (one character stands for one code unit);
    - an optional value ([error?: string], [errors.firstName]) is an
      [option];
    - [await] is sequencing in the state monad [M]; in the transition
      system the handler also stops where it awaits a collaborator and
      goes on when that settles; a rejected promise is outside the
      model. *)

From Stdlib Require Import Ascii String DecimalString List Bool Arith Lia.
Import ListNotations.
Open Scope string_scope.
Open Scope list_scope.

(** ** JavaScript truthiness *)

Module Js.

(** [if (error)] on a value of type [string | undefined]: [undefined] and
    the empty string are falsy; the branch is entered with the string. *)
Definition truthy (v : option string) : option string :=
  match v with
  | Some s => if String.eqb s "" then None else Some s
  | None => None
  end.

End Js.

(** ** Field errors, as react-hook-form stores them *)

Record FieldError : Type := mkFieldError { type : string; message : string }.

(** ** The part of yup the schema uses *)

Module yup.

(** A test of a schema.  [name] becomes the [type] of the error;
    [template] is the message, which may mention the path of the value. *)
Record Test (A : Type) : Type :=
  mkTest { name : string; template : string -> string; test : A -> bool }.

Arguments mkTest {A} _ _ _.
Arguments name {A} _.
Arguments template {A} _ _.
Arguments test {A} _ _.

Definition Schema (A : Type) : Type := list (Test A).

Definition addTest {A : Type} (s : Schema A) (t : Test A) : Schema A :=
  s ++ [t].

(** [yup.string()], [yup.boolean()] *)
Definition string : Schema String.string := [].
Definition boolean : Schema bool := [].

(** [.required(msg)] on a string: the empty string is not present. *)
Definition required (msg : String.string) (s : Schema String.string)
  : Schema String.string :=
  addTest s (mkTest "required" (fun _ => msg)
               (fun value => negb (String.length value =? 0)%nat)).

(** [.min(n, msg)] on a string *)
Definition min (n : nat) (msg : String.string) (s : Schema String.string)
  : Schema String.string :=
  addTest s (mkTest "min" (fun _ => msg)
               (fun value => (n <=? String.length value)%nat)).

(** [.email()]: the pattern [rEmail] of the library, the empty string
    excluded; no message is given, so the default of the locale is used. *)
Definition email (rEmail : String.string -> bool) (s : Schema String.string)
  : Schema String.string :=
  addTest s (mkTest "email"
               (fun path => (path ++ " must be a valid email")%string)
               (fun value => String.eqb value "" || rEmail value)).

(** [.oneOf(allowed, msg)] on a boolean *)
Definition oneOf (allowed : list bool) (msg : String.string) (s : Schema bool)
  : Schema bool :=
  addTest s (mkTest "oneOf" (fun _ => msg)
               (fun value => existsb (Bool.eqb value) allowed)).

(** [yup.array().of(inner)] with its own tests *)
Record ArraySchema : Type :=
  mkArray { innerType : Schema String.string;
            arrayTests : Schema (list String.string) }.

Definition array : ArraySchema := mkArray [] [].

Definition of_ (inner : Schema String.string) (a : ArraySchema)
  : ArraySchema :=
  mkArray inner (arrayTests a).

Definition arrayMin (n : nat) (msg : String.string) (a : ArraySchema)
  : ArraySchema :=
  mkArray (innerType a)
    (addTest (arrayTests a)
       (mkTest "min" (fun _ => msg)
          (fun value => (n <=? List.length value)%nat))).

(** Validation with [abortEarly: false]: every failing test reports, in
    the order the tests were added. *)
Fixpoint validate {A : Type} (s : Schema A) (path : String.string) (value : A)
  : list FieldError :=
  match s with
  | [] => []
  | t :: s' =>
      if test t value then validate s' path value
      else mkFieldError (name t) (template t path) :: validate s' path value
  end.

(** The entries of an array, each under its own path
    [contactNumbers[0]], [contactNumbers[1]], ...; of the errors of one
    entry the first is kept. *)
Definition itemPath (path : String.string) (index : nat) : String.string :=
  (path ++ "[" ++ NilEmpty.string_of_uint (Nat.to_uint index) ++ "]")%string.

Fixpoint validateItems (inner : Schema String.string) (path : String.string)
    (index : nat) (value : list String.string) : list (option FieldError) :=
  match value with
  | [] => []
  | item :: rest =>
      hd_error (validate inner (itemPath path index) item)
      :: validateItems inner path (S index) rest
  end.

End yup.

Notation "x |> f" := (f x) (at level 45, left associativity, only parsing).

(** ** The form values and the schema *)

Record Values : Type := mkValues {
  firstName : string;
  lastName : string;
  email : string;
  password : string;
  contactNumbers : list string;
  terms : bool
}.

(** [yup.object({...})]: one schema per key. *)
Record ObjectSchema : Type := mkObject {
  s_firstName : yup.Schema string;
  s_lastName : yup.Schema string;
  s_email : yup.Schema string;
  s_password : yup.Schema string;
  s_contactNumbers : yup.ArraySchema;
  s_terms : yup.Schema bool
}.

(** The errors of the form, [formState.errors].  For the field array,
    [root] is the error of the array itself and [items] the errors of its
    entries by index ([errors.contactNumbers?.[index]]). *)
Module FieldErrors.

Record ArrayErrors : Type :=
  mkArrayErrors { arrayRoot : option FieldError;
                  items : list (option FieldError) }.

Record t : Type := mk {
  firstName : option FieldError;
  lastName : option FieldError;
  email : option FieldError;
  password : option FieldError;
  contactNumbers : ArrayErrors;
  terms : option FieldError;
  root : option FieldError
}.

Definition empty : t :=
  mk None None None None (mkArrayErrors None []) None None.

(** [errors.contactNumbers?.[index]] *)
Definition contactNumberAt (e : t) (index : nat) : option FieldError :=
  match nth_error (items (contactNumbers e)) index with
  | Some o => o
  | None => None
  end.

Definition isNone {A : Type} (o : option A) : bool :=
  match o with None => true | Some _ => false end.

(** [isEmptyObject(errors)]: no slot holds an error. *)
Definition isEmptyObject (e : t) : bool :=
  isNone (firstName e) && isNone (lastName e) && isNone (email e)
  && isNone (password e) && isNone (arrayRoot (contactNumbers e))
  && forallb isNone (items (contactNumbers e))
  && isNone (terms e) && isNone (root e).

(** [unset(errors, 'root')] *)
Definition unsetRoot (e : t) : t :=
  mk (firstName e) (lastName e) (email e) (password e) (contactNumbers e)
     (terms e) None.

(** [set(errors, 'root', error)] *)
Definition setRoot (error : FieldError) (e : t) : t :=
  mk (firstName e) (lastName e) (email e) (password e) (contactNumbers e)
     (terms e) (Some error).

End FieldErrors.

(** [yupResolver(schema)]: validate every key; of the errors reported for
    one path the first is kept. *)
Definition yupResolver (schema : ObjectSchema) (values : Values)
  : FieldErrors.t :=
  FieldErrors.mk
    (hd_error (yup.validate (s_firstName schema) "firstName" (firstName values)))
    (hd_error (yup.validate (s_lastName schema) "lastName" (lastName values)))
    (hd_error (yup.validate (s_email schema) "email" (email values)))
    (hd_error (yup.validate (s_password schema) "password" (password values)))
    (FieldErrors.mkArrayErrors
       (hd_error (yup.validate (yup.arrayTests (s_contactNumbers schema))
                    "contactNumbers" (contactNumbers values)))
       (yup.validateItems (yup.innerType (s_contactNumbers schema))
          "contactNumbers" 0 (contactNumbers values)))
    (hd_error (yup.validate (s_terms schema) "terms" (terms values)))
    None.

Definition defaultValues : Values :=
  {| firstName := "";
     lastName := "";
     email := "";
     password := "";
     contactNumbers := [];
     terms := false |}.

(** ** The state of the component and the calls it makes *)

(** What one instance of the component holds: the values and errors of
    [useForm] and the flag of [React.useState]. *)
Record FormState : Type := mkFormState {
  values : Values;
  errors : FieldErrors.t;
  isPending : bool
}.

(** The calls of the submit handler, in program order. *)
Inductive Call : Type :=
| SetIsPending (pending : bool)
| SignUp (sent : Values)
| SetErrorRoot (error : FieldError)
| CheckSession
| RouterRefresh.

(** One row of the form: [FormControl], [InputLabel], [OutlinedInput]
    and, under an error, [FormHelperText]. *)
Record FieldView : Type := mkFieldView {
  label : string;
  value : string;
  error : bool;
  helperText : option string
}.

Record ContactRow : Type := mkContactRow {
  contactInput : FieldView;
  removeDisabled : bool
}.

Record TermsView : Type := mkTermsView {
  checked : bool;
  termsHelperText : option string
}.

Record View : Type := mkView {
  firstNameField : FieldView;
  lastNameField : FieldView;
  emailField : FieldView;
  passwordField : FieldView;
  contactRows : list ContactRow;
  termsField : TermsView;
  alert : option string;
  submitDisabled : bool
}.

(** What can happen to the rendered form: what the user does with it, and
    the promises the submit handler awaits settling. *)
Inductive Event : Type :=
| TypeFirstName (text : string)
| TypeLastName (text : string)
| TypeEmail (text : string)
| TypePassword (text : string)
| TypeContactNumber (index : nat) (text : string)
| CheckTerms (accepted : bool)
| ClickAdd
| ClickRemove (index : nat)
| ClickSubmit
| SignUpSettles
| SessionSettles.

(** [Boolean(x)] of an optional object *)
Definition isSome {A : Type} (o : option A) : bool :=
  match o with Some _ => true | None => false end.

(** The [FormControl] every [Controller] renders:
    [{err ? <FormHelperText>{err.message}</FormHelperText> : null}]. *)
Definition formControl (lbl val : string) (err : option FieldError)
  : FieldView :=
  {| label := lbl;
     value := val;
     error := isSome err;
     helperText := match err with
                   | Some e => Some (message e)
                   | None => None
                   end |}.

(** [array.map((x, index) => f x index)], counting from [index] *)
Fixpoint mapi {A B : Type} (f : A -> nat -> B) (index : nat) (l : list A)
  : list B :=
  match l with
  | [] => []
  | x :: rest => f x index :: mapi f (S index) rest
  end.

(** The array without the entry at [index]; unchanged out of range. *)
Fixpoint removeAt {A : Type} (index : nat) (l : list A) : list A :=
  match l, index with
  | [], _ => []
  | _ :: rest, 0 => rest
  | x :: rest, S i => x :: removeAt i rest
  end.

(** [compact(array)] of react-hook-form, [array.filter(Boolean)]: of an
    array of strings the empty ones are dropped. *)
Definition compact (l : list string) : list string :=
  filter (fun item => negb (String.eqb item "")) l.

(** The array with the entry at [index] replaced; unchanged out of range
    (the form renders inputs for the indices in range only). *)
Fixpoint replaceAt {A : Type} (index : nat) (x : A) (l : list A) : list A :=
  match l, index with
  | [], _ => []
  | _ :: rest, 0 => x :: rest
  | y :: rest, S i => y :: replaceAt i x rest
  end.

Definition withContactNumbers (numbers : list string) (v : Values) : Values :=
  {| firstName := firstName v;
     lastName := lastName v;
     email := email v;
     password := password v;
     contactNumbers := numbers;
     terms := terms v |}.

(** The value an event of typing or ticking writes into the form. *)
Definition edit (ev : Event) (v : Values) : Values :=
  match ev with
  | TypeFirstName text =>
      mkValues text (lastName v) (email v) (password v) (contactNumbers v)
        (terms v)
  | TypeLastName text =>
      mkValues (firstName v) text (email v) (password v) (contactNumbers v)
        (terms v)
  | TypeEmail text =>
      mkValues (firstName v) (lastName v) text (password v) (contactNumbers v)
        (terms v)
  | TypePassword text =>
      mkValues (firstName v) (lastName v) (email v) text (contactNumbers v)
        (terms v)
  | TypeContactNumber index text =>
      withContactNumbers (replaceAt index text (contactNumbers v)) v
  | CheckTerms accepted =>
      mkValues (firstName v) (lastName v) (email v) (password v)
        (contactNumbers v) accepted
  | ClickAdd | ClickRemove _ | ClickSubmit => v
  | SignUpSettles | SessionSettles => v
  end.

Definition isEdit (ev : Event) : bool :=
  match ev with
  | ClickAdd | ClickRemove _ | ClickSubmit => false
  | SignUpSettles | SessionSettles => false
  | _ => true
  end.

(** ** The state monad of the handlers

    A handler runs on the state of the component, on the [world] its
    collaborators act on, and on the list of the calls made so far. *)

Record Machine (World : Type) : Type := mkMachine {
  form : FormState;
  world : World;
  calls : list Call
}.

Arguments mkMachine {World} _ _ _.
Arguments form {World} _.
Arguments world {World} _.
Arguments calls {World} _.

Definition M (World A : Type) : Type := Machine World -> A * Machine World.

Definition ret {World A : Type} (a : A) : M World A := fun m => (a, m).

Definition bind {World A B : Type} (c : M World A) (k : A -> M World B)
  : M World B :=
  fun m => let (a, m') := c m in k a m'.

Notation "x <- c ;; k" := (bind c (fun x => k))
  (at level 61, c at next level, right associativity).
Notation "c ;; k" := (bind c (fun _ => k))
  (at level 61, right associativity).

Definition exec {World A : Type} (c : M World A) (m : Machine World)
  : Machine World :=
  snd (c m).

Definition called {World : Type} (c : Call) : M World unit :=
  fun m => (tt, mkMachine (form m) (world m) (calls m ++ [c])).

Definition modifyForm {World : Type} (f : FormState -> FormState)
  : M World unit :=
  fun m => (tt, mkMachine (f (form m)) (world m) (calls m)).

Definition initialForm : FormState :=
  mkFormState defaultValues FieldErrors.empty false.

Definition initial {World : Type} (w : World) : Machine World :=
  mkMachine initialForm w [].

(** ** Sample data

    A stand-in for the pattern of [.email()], some sets of values, and
    collaborators over a world that records which of them ran, in which
    order. *)

Fixpoint containsAt (s : string) : bool :=
  match s with
  | EmptyString => false
  | String c rest => Ascii.eqb c "@"%char || containsAt rest
  end.

Definition ada : Values :=
  {| firstName := "Ada";
     lastName := "Lovelace";
     email := "ada@example.org";
     password := "engine";
     contactNumbers := ["5550100"];
     terms := true |}.

Definition adaNoLastName : Values :=
  mkValues "Ada" "" "ada@example.org" "engine" ["5550100"] true.

Definition adaNoFirstName : Values :=
  mkValues "" "Lovelace" "ada@example.org" "engine" ["5550100"] true.

Definition adaShortPassword : Values :=
  mkValues "Ada" "Lovelace" "ada@example.org" "abc" ["5550100"] true.

Definition adaNoContact : Values :=
  mkValues "Ada" "Lovelace" "ada@example.org" "engine" [] true.

Definition adaTwoContacts : Values :=
  mkValues "Ada" "Lovelace" "ada@example.org" "engine"
    ["5550100"; "5550101"] true.

Definition adaEmptyContact : Values :=
  mkValues "Ada" "Lovelace" "ada@example.org" "engine" ["5550100"; ""] true.

Definition adaBlankContact : Values :=
  mkValues "Ada" "Lovelace" "ada@example.org" "engine" [""] true.

Definition filled (v : Values) : Machine (list string) :=
  mkMachine (mkFormState v FieldErrors.empty false) [] [].

Definition acceptSignUp (_ : Values) (w : list string)
  : option string * list string :=
  (None, w ++ ["signUp"]).

Definition rejectSignUp (reason : string) (_ : Values) (w : list string)
  : option string * list string :=
  (Some reason, w ++ ["signUp"]).

(** A sign-up that fails the first time it is called and goes through
    from then on. *)
Definition flakySignUp (_ : Values) (w : list string)
  : option string * list string :=
  (if existsb (String.eqb "signUp") w then None
   else Some "Service unavailable",
   w ++ ["signUp"]).

Definition sessionRefresh (w : list string) : list string :=
  w ++ ["checkSession"].

Definition routeRefresh (w : list string) : list string :=
  w ++ ["refresh"].

Section SignUpForm.

(** The pattern of yup behind [.email()]. *)
Variable rEmail : string -> bool.

(** The collaborators: [authClient.signUp] resolves to [{ error }];
    [checkSession] of [useUser()] is optional (it is called as
    [checkSession?.()]); [router.refresh] of [useRouter()].  [World] is
    whatever they act on. *)
Variable World : Type.
Variable signUp : Values -> World -> option string * World.
Variable checkSession : option (World -> World).
Variable refresh : World -> World.

Definition schema : ObjectSchema :=
  {| s_firstName := yup.string |> yup.required "First name is required";
     s_lastName := yup.string |> yup.required "Last name is required";
     s_email := yup.string |> yup.required "Email is required"
                           |> yup.email rEmail;
     s_password :=
       yup.string
       |> yup.required "Password is required"
       |> yup.min 6 "Password should need to be at least 6 characters";
     s_contactNumbers :=
       yup.array
       |> yup.of_ (yup.string |> yup.required "Contact number is required")
       |> yup.arrayMin 1 "At least one contact number is required";
     s_terms :=
       yup.boolean
       |> yup.oneOf [true] "You must accept the terms and conditions" |}.

(** *** The handlers *)

(** [setIsPending(b)] *)
Definition setIsPending (b : bool) : M World unit :=
  called (SetIsPending b) ;;
  modifyForm (fun s => mkFormState (values s) (errors s) b).

(** [setError('root', error)] *)
Definition setErrorRoot (error : FieldError) : M World unit :=
  called (SetErrorRoot error) ;;
  modifyForm (fun s =>
    mkFormState (values s) (FieldErrors.setRoot error (errors s))
      (isPending s)).

(** [await authClient.signUp(values)] *)
Definition authClient_signUp (v : Values) : M World (option string) :=
  called (SignUp v) ;;
  fun m => let (error, w) := signUp v (world m) in
           (error, mkMachine (form m) w (calls m)).

(** [await checkSession?.()] *)
Definition checkSession_opt : M World unit :=
  match checkSession with
  | Some refreshSession =>
      called CheckSession ;;
      fun m => (tt, mkMachine (form m) (refreshSession (world m)) (calls m))
  | None => ret tt
  end.

(** [router.refresh()] *)
Definition router_refresh : M World unit :=
  called RouterRefresh ;;
  fun m => (tt, mkMachine (form m) (refresh (world m)) (calls m)).

(** *** The submit handler *)

Definition onSubmit (v : Values) : M World unit :=
  setIsPending true ;;
  error <- authClient_signUp v ;;
  match Js.truthy error with
  | Some msg =>
      setErrorRoot {| type := "server"; message := msg |} ;;
      setIsPending false
  | None =>
      checkSession_opt ;;
      router_refresh
  end.

(** The handler between its awaits.  [onSubmit_start] runs up to the
    call of the sign-up; [onSubmit_afterSignUp] runs when the sign-up has
    settled, up to the call of the session refresh when there is one;
    [onSubmit_afterSession] runs when the session refresh has settled.
    An [await] on nothing ([checkSession] undefined) gives no other event
    the chance to run. *)
Definition onSubmit_start (v : Values) : M World unit :=
  setIsPending true ;;
  called (SignUp v).

Definition onSubmit_afterSignUp (v : Values) : M World unit :=
  error <- (fun m => let (error, w) := signUp v (world m) in
                     (error, mkMachine (form m) w (calls m))) ;;
  match Js.truthy error with
  | Some msg =>
      setErrorRoot {| type := "server"; message := msg |} ;;
      setIsPending false
  | None =>
      match checkSession with
      | Some _ => called CheckSession
      | None => router_refresh
      end
  end.

Definition onSubmit_afterSession : M World unit :=
  match checkSession with
  | Some refreshSession =>
      (fun m => (tt, mkMachine (form m) (refreshSession (world m)) (calls m))) ;;
      router_refresh
  | None => ret tt
  end.

(** The last call made: where a handler in flight stands. *)
Definition lastCall (m : Machine World) : option Call :=
  hd_error (rev (calls m)).

(** [handleSubmit(onValid)] of react-hook-form with a resolver: the
    errors of the resolver replace the errors of the form, the root error
    is dropped, and [onValid] runs on the values when no error is left. *)
Definition handleSubmit (onValid : Values -> M World unit) : M World unit :=
  fun m =>
    let fieldValues := values (form m) in
    let errs := FieldErrors.unsetRoot (yupResolver schema fieldValues) in
    let m' := mkMachine (mkFormState fieldValues errs (isPending (form m)))
                (world m) (calls m) in
    if FieldErrors.isEmptyObject errs then onValid fieldValues m'
    else (tt, m').

(** *** The field array of the contact numbers *)

(** [append(value)] of [useFieldArray].  The library reads the list
    through [compact], so the empty entries are dropped, and puts [value]
    at the end.  It also moves the errors by index along and, after a
    submission, validates the list again: [errs] stands for the errors it
    leaves, which the model leaves open. *)
Definition append (text : string) (errs : FieldErrors.t) : M World unit :=
  modifyForm (fun s =>
    mkFormState
      (withContactNumbers (compact (contactNumbers (values s)) ++ [text])
         (values s))
      errs (isPending s)).

(** [remove(index)] of [useFieldArray].  The library reads the list
    through [compact], so the empty entries are dropped, and takes the
    entry at [index] out of what is left; [errs] as for [append]. *)
Definition remove (index : nat) (errs : FieldErrors.t) : M World unit :=
  modifyForm (fun s =>
    mkFormState
      (withContactNumbers (removeAt index (compact (contactNumbers (values s))))
         (values s))
      errs (isPending s)).

(** [fields] of [useFieldArray]: one per contact number. *)
Definition fields (s : FormState) : list string :=
  contactNumbers (values s).

(** *** What the component renders *)

(** The form, control by control.  The control of the last name reads
    [errors.firstName], as the source has it, both for the error flag and
    for the helper text. *)
Definition SignUpForm (s : FormState) : View :=
  let e := errors s in
  let v := values s in
  {| firstNameField :=
       formControl "First name" (firstName v) (FieldErrors.firstName e);
     lastNameField :=
       formControl "Last name" (lastName v) (FieldErrors.firstName e);
     emailField :=
       formControl "Email address" (email v) (FieldErrors.email e);
     passwordField :=
       formControl "Password" (password v) (FieldErrors.password e);
     contactRows :=
       mapi (fun field index =>
               {| contactInput :=
                    formControl "Contact Number" field
                      (FieldErrors.contactNumberAt e index);
                  removeDisabled := (List.length (fields s) =? 1)%nat |})
            0 (fields s);
     termsField :=
       {| checked := terms v;
          termsHelperText := match FieldErrors.terms e with
                             | Some err => Some (message err)
                             | None => None
                             end |};
     alert := match FieldErrors.root e with
              | Some err => Some (message err)
              | None => None
              end;
     submitDisabled := isPending s |}.

(** *** The form as a transition system *)

(** One event.  After an edit, and after a click on [Add Contact Number]
    or [Remove], the library may validate again, so the errors are left
    open there.  A [Remove] button exists for every rendered row and a
    disabled button does not fire; the same holds for the submit button.
    The browser may hold a submission back on its own (the email input
    has [type="email"]); the relation lets every submission through,
    which only adds states.

    A click on the submit button validates (yup settles without giving
    another event the chance to run) and, on valid values, runs the
    handler up to the call of the sign-up ([step_submit_starts]); the
    handler goes on when the sign-up settles and when the session refresh
    settles, and other events may come in between.  [step_submit] is the
    click together with the settling of what the handler awaits, when
    nothing comes in between. *)
Inductive step : Machine World -> Event -> Machine World -> Prop :=
| step_edit : forall m ev errs,
    isEdit ev = true ->
    step m ev
      (mkMachine
         (mkFormState (edit ev (values (form m))) errs (isPending (form m)))
         (world m) (calls m))
| step_add : forall m errs,
    step m ClickAdd (exec (append "" errs) m)
| step_remove : forall m index row errs,
    nth_error (contactRows (SignUpForm (form m))) index = Some row ->
    removeDisabled row = false ->
    step m (ClickRemove index) (exec (remove index errs) m)
| step_submit : forall m,
    submitDisabled (SignUpForm (form m)) = false ->
    step m ClickSubmit (exec (handleSubmit onSubmit) m)
| step_submit_starts : forall m,
    submitDisabled (SignUpForm (form m)) = false ->
    step m ClickSubmit (exec (handleSubmit onSubmit_start) m)
| step_signUp_settles : forall m v,
    lastCall m = Some (SignUp v) ->
    step m SignUpSettles (exec (onSubmit_afterSignUp v) m)
| step_session_settles : forall m,
    lastCall m = Some CheckSession ->
    step m SessionSettles (exec onSubmit_afterSession m).

(** [run m0 evs m]: the events [evs], in this order, lead from [m0] to
    [m]. *)
Inductive run (m0 : Machine World) : list Event -> Machine World -> Prop :=
| run_nil : run m0 [] m0
| run_snoc : forall evs m ev m',
    run m0 evs m -> step m ev m' -> run m0 (evs ++ [ev]) m'.

(** The states a fresh form can get into. *)
Definition reachable (m : Machine World) : Prop :=
  exists w evs, run (initial w) evs m.

(** *** The failures of validation the specification lists *)

Definition listedFailure (v : Values) : Prop :=
  firstName v = "" \/ lastName v = "" \/ email v = "" \/ password v = ""
  \/ In "" (contactNumbers v)
  \/ rEmail (email v) = false
  \/ String.length (password v) < 6
  \/ List.length (contactNumbers v) < 1
  \/ terms v = false.

(** The error each of these failures puts into [formState.errors]. *)
Definition perFieldErrors (v : Values) (e : FieldErrors.t) : Prop :=
  (firstName v = "" ->
   FieldErrors.firstName e
   = Some (mkFieldError "required" "First name is required"))
  /\ (lastName v = "" ->
      FieldErrors.lastName e
      = Some (mkFieldError "required" "Last name is required"))
  /\ (email v = "" ->
      FieldErrors.email e
      = Some (mkFieldError "required" "Email is required"))
  /\ (email v <> "" -> rEmail (email v) = false ->
      FieldErrors.email e
      = Some (mkFieldError "email" "email must be a valid email"))
  /\ (password v = "" ->
      FieldErrors.password e
      = Some (mkFieldError "required" "Password is required"))
  /\ (password v <> "" -> String.length (password v) < 6 ->
      FieldErrors.password e
      = Some (mkFieldError "min"
                "Password should need to be at least 6 characters"))
  /\ (List.length (contactNumbers v) < 1 ->
      FieldErrors.arrayRoot (FieldErrors.contactNumbers e)
      = Some (mkFieldError "min" "At least one contact number is required"))
  /\ (forall index, nth_error (contactNumbers v) index = Some "" ->
      FieldErrors.contactNumberAt e index
      = Some (mkFieldError "required" "Contact number is required"))
  /\ (terms v = false ->
      FieldErrors.terms e
      = Some (mkFieldError "oneOf"
                "You must accept the terms and conditions")).

(** The message each of these failures puts on the screen; the last
    name is left out, see [SignUpForm]. *)
Definition shownMessages (v : Values) (view : View) : Prop :=
  (firstName v = "" ->
   helperText (firstNameField view) = Some "First name is required")
  /\ (email v = "" ->
      helperText (emailField view) = Some "Email is required")
  /\ (email v <> "" -> rEmail (email v) = false ->
      helperText (emailField view) = Some "email must be a valid email")
  /\ (password v = "" ->
      helperText (passwordField view) = Some "Password is required")
  /\ (password v <> "" -> String.length (password v) < 6 ->
      helperText (passwordField view)
      = Some "Password should need to be at least 6 characters")
  /\ (forall index, nth_error (contactNumbers v) index = Some "" ->
      exists row,
        nth_error (contactRows view) index = Some row
        /\ helperText (contactInput row) = Some "Contact number is required")
  /\ (terms v = false ->
      termsHelperText (termsField view)
      = Some "You must accept the terms and conditions").

(** The error of one contact number under its schema. *)
Definition itemError (item : string) : option FieldError :=
  if String.eqb item "" then
    Some (mkFieldError "required" "Contact number is required")
  else None.

(** ** Properties *)

(** *** The schema, key by key *)

Lemma resolver_firstName : forall v,
  FieldErrors.firstName (yupResolver schema v)
  = if String.eqb (firstName v) "" then
      Some (mkFieldError "required" "First name is required")
    else None.
Proof. intros [[|c s] ? ? ? ? ?]; reflexivity. Qed.

Lemma resolver_lastName : forall v,
  FieldErrors.lastName (yupResolver schema v)
  = if String.eqb (lastName v) "" then
      Some (mkFieldError "required" "Last name is required")
    else None.
Proof. intros [? [|c s] ? ? ? ?]; reflexivity. Qed.

Lemma resolver_email : forall v,
  FieldErrors.email (yupResolver schema v)
  = if String.eqb (email v) "" then
      Some (mkFieldError "required" "Email is required")
    else if rEmail (email v) then None
    else Some (mkFieldError "email" "email must be a valid email").
Proof.
  intros [? ? [|c s] ? ? ?]; [reflexivity|].
  cbn. destruct (rEmail (String c s)); reflexivity.
Qed.

Lemma resolver_password : forall v,
  FieldErrors.password (yupResolver schema v)
  = if String.eqb (password v) "" then
      Some (mkFieldError "required" "Password is required")
    else if (6 <=? String.length (password v))%nat then None
    else Some (mkFieldError "min"
                 "Password should need to be at least 6 characters").
Proof.
  intros [? ? ? [|c s] ? ?]; [reflexivity|].
  cbn -[Nat.leb].
  destruct (6 <=? S (String.length s))%nat; reflexivity.
Qed.

Lemma resolver_arrayRoot : forall v,
  FieldErrors.arrayRoot (FieldErrors.contactNumbers (yupResolver schema v))
  = if (1 <=? List.length (contactNumbers v))%nat then None
    else Some (mkFieldError "min" "At least one contact number is required").
Proof. intros [? ? ? ? [|n l] ?]; reflexivity. Qed.

Lemma validateItems_required : forall l index,
  yup.validateItems (yup.innerType (s_contactNumbers schema))
    "contactNumbers" index l
  = map itemError l.
Proof.
  induction l as [|item l IH]; intros index; [reflexivity|].
  cbn [yup.validateItems map]. rewrite IH. f_equal.
  destruct item; reflexivity.
Qed.

Lemma resolver_items : forall v,
  FieldErrors.items (FieldErrors.contactNumbers (yupResolver schema v))
  = map itemError (contactNumbers v).
Proof. intros v. apply validateItems_required. Qed.

Lemma resolver_terms : forall v,
  FieldErrors.terms (yupResolver schema v)
  = if terms v then None
    else Some (mkFieldError "oneOf"
                 "You must accept the terms and conditions").
Proof. intros [? ? ? ? ? [|]]; reflexivity. Qed.

Lemma resolver_root : forall v,
  FieldErrors.unsetRoot (yupResolver schema v) = yupResolver schema v.
Proof. reflexivity. Qed.

Lemma eqb_empty_true : forall s, String.eqb s "" = true <-> s = "".
Proof. intros s. apply String.eqb_eq. Qed.

Lemma eqb_empty_false : forall s, String.eqb s "" = false <-> s <> "".
Proof. intros s. apply String.eqb_neq. Qed.

Lemma forallb_itemError : forall l,
  forallb FieldErrors.isNone (map itemError l) = true <-> ~ In "" l.
Proof.
  induction l as [|item l IH]; cbn.
  - tauto.
  - rewrite andb_true_iff, IH. unfold itemError.
    destruct (String.eqb item "") eqn:E; cbn.
    + apply eqb_empty_true in E. subst. intuition congruence.
    + apply eqb_empty_false in E. intuition congruence.
Qed.

Lemma contactNumberAt_resolver : forall v index item,
  nth_error (contactNumbers v) index = Some item ->
  FieldErrors.contactNumberAt (yupResolver schema v) index = itemError item.
Proof.
  intros v index item H. unfold FieldErrors.contactNumberAt.
  rewrite resolver_items, nth_error_map, H. reflexivity.
Qed.

(** The resolver reports for each failure the message of that field. *)
Lemma resolver_perFieldErrors : forall v,
  perFieldErrors v (yupResolver schema v).
Proof.
  intros v. unfold perFieldErrors.
  rewrite resolver_firstName, resolver_lastName, resolver_email,
    resolver_password, resolver_arrayRoot, resolver_terms.
  repeat split.
  - intros ->. reflexivity.
  - intros ->. reflexivity.
  - intros ->. reflexivity.
  - intros Hne Hre. apply eqb_empty_false in Hne. rewrite Hne, Hre. reflexivity.
  - intros ->. reflexivity.
  - intros Hne Hlen. apply eqb_empty_false in Hne. rewrite Hne.
    destruct (Nat.leb_spec 6 (String.length (password v))); [lia|reflexivity].
  - intros Hlen.
    destruct (Nat.leb_spec 1 (List.length (contactNumbers v))); [lia|reflexivity].
  - intros index H. rewrite (contactNumberAt_resolver _ _ _ H). reflexivity.
  - intros ->. reflexivity.
Qed.

(** The schema accepts exactly the values without a listed failure. *)
Lemma resolver_empty_iff : forall v,
  FieldErrors.isEmptyObject (yupResolver schema v) = true
  <-> ~ listedFailure v.
Proof.
  intros v. unfold FieldErrors.isEmptyObject, listedFailure.
  rewrite resolver_firstName, resolver_lastName, resolver_email,
    resolver_password, resolver_arrayRoot, resolver_terms, resolver_items.
  rewrite !andb_true_iff, forallb_itemError.
  pose proof (eqb_empty_true (firstName v)) as T1.
  pose proof (eqb_empty_false (firstName v)) as F1.
  pose proof (eqb_empty_true (lastName v)) as T2.
  pose proof (eqb_empty_false (lastName v)) as F2.
  pose proof (eqb_empty_true (email v)) as T3.
  pose proof (eqb_empty_false (email v)) as F3.
  pose proof (eqb_empty_true (password v)) as T4.
  pose proof (eqb_empty_false (password v)) as F4.
  destruct (String.eqb (firstName v) ""), (String.eqb (lastName v) ""),
    (String.eqb (email v) ""), (String.eqb (password v) "");
    cbn -[Nat.leb]; try solve [intuition congruence].
  destruct (rEmail (email v)),
    (Nat.leb_spec 6 (String.length (password v))),
    (Nat.leb_spec 1 (List.length (contactNumbers v))),
    (terms v); cbn;
    intuition (try congruence; try lia).
Qed.

Lemma listedFailure_invalid : forall v,
  listedFailure v -> FieldErrors.isEmptyObject (yupResolver schema v) = false.
Proof.
  intros v H.
  destruct (FieldErrors.isEmptyObject (yupResolver schema v)) eqn:E;
    [|reflexivity].
  apply resolver_empty_iff in E. contradiction.
Qed.

(** Validation fails exactly on the listed failures. *)
Lemma validation_fails_iff : forall v,
  FieldErrors.isEmptyObject (yupResolver schema v) = false
  <-> listedFailure v.
Proof.
  intros v. split.
  - intros E. unfold listedFailure.
    destruct (String.eqb (firstName v) "") eqn:E1;
      [apply eqb_empty_true in E1; tauto|].
    destruct (String.eqb (lastName v) "") eqn:E2;
      [apply eqb_empty_true in E2; tauto|].
    destruct (String.eqb (email v) "") eqn:E3;
      [apply eqb_empty_true in E3; tauto|].
    destruct (String.eqb (password v) "") eqn:E4;
      [apply eqb_empty_true in E4; tauto|].
    destruct (rEmail (email v)) eqn:E5; [|tauto].
    destruct (Nat.leb_spec 6 (String.length (password v))) as [L6|L6];
      [|tauto].
    destruct (Nat.leb_spec 1 (List.length (contactNumbers v))) as [L1|L1];
      [|tauto].
    destruct (terms v) eqn:E6; [|tauto].
    destruct (in_dec string_dec "" (contactNumbers v)) as [I|I]; [tauto|].
    exfalso. assert (~ listedFailure v) as N.
    2:{ apply resolver_empty_iff in N. congruence. }
    unfold listedFailure.
    apply eqb_empty_false in E1, E2, E3, E4.
    intuition (try congruence; try lia).
  - apply listedFailure_invalid.
Qed.

(** *** The handlers, branch by branch *)

Lemma handleSubmit_invalid : forall (onValid : Values -> M World unit) m,
  FieldErrors.isEmptyObject (yupResolver schema (values (form m))) = false ->
  exec (handleSubmit onValid) m
  = mkMachine
      (mkFormState (values (form m)) (yupResolver schema (values (form m)))
         (isPending (form m)))
      (world m) (calls m).
Proof.
  intros onValid m H. unfold exec, handleSubmit.
  rewrite resolver_root, H. reflexivity.
Qed.

Lemma handleSubmit_valid : forall (onValid : Values -> M World unit) m,
  FieldErrors.isEmptyObject (yupResolver schema (values (form m))) = true ->
  exec (handleSubmit onValid) m
  = exec (onValid (values (form m)))
      (mkMachine
         (mkFormState (values (form m)) (yupResolver schema (values (form m)))
            (isPending (form m)))
         (world m) (calls m)).
Proof.
  intros onValid m H. unfold exec, handleSubmit.
  rewrite resolver_root, H. reflexivity.
Qed.

Lemma onSubmit_error : forall v m msg,
  Js.truthy (fst (signUp v (world m))) = Some msg ->
  exec (onSubmit v) m
  = mkMachine
      (mkFormState (values (form m))
         (FieldErrors.setRoot (mkFieldError "server" msg) (errors (form m)))
         false)
      (snd (signUp v (world m)))
      (calls m ++ [SetIsPending true; SignUp v;
                   SetErrorRoot (mkFieldError "server" msg);
                   SetIsPending false]).
Proof.
  intros v m msg H. unfold exec, onSubmit, bind, authClient_signUp,
    setIsPending, setErrorRoot, called, modifyForm, bind. cbn.
  destruct (signUp v (world m)) as [error w] eqn:E. cbn in H |- *.
  rewrite H. cbn. rewrite <- !app_assoc. reflexivity.
Qed.

Lemma onSubmit_success_with_session : forall v m refreshSession,
  checkSession = Some refreshSession ->
  Js.truthy (fst (signUp v (world m))) = None ->
  exec (onSubmit v) m
  = mkMachine
      (mkFormState (values (form m)) (errors (form m)) true)
      (refresh (refreshSession (snd (signUp v (world m)))))
      (calls m ++ [SetIsPending true; SignUp v; CheckSession; RouterRefresh]).
Proof.
  intros v m refreshSession Hc H. unfold exec, onSubmit, bind,
    authClient_signUp, checkSession_opt, router_refresh, setIsPending,
    called, modifyForm, bind. cbn.
  destruct (signUp v (world m)) as [error w] eqn:E. cbn in H |- *.
  rewrite H, Hc. cbn. rewrite <- !app_assoc. reflexivity.
Qed.

Lemma onSubmit_success_without_session : forall v m,
  checkSession = None ->
  Js.truthy (fst (signUp v (world m))) = None ->
  exec (onSubmit v) m
  = mkMachine
      (mkFormState (values (form m)) (errors (form m)) true)
      (refresh (snd (signUp v (world m))))
      (calls m ++ [SetIsPending true; SignUp v; RouterRefresh]).
Proof.
  intros v m Hc H. unfold exec, onSubmit, bind,
    authClient_signUp, checkSession_opt, router_refresh, setIsPending,
    called, modifyForm, bind, ret. cbn.
  destruct (signUp v (world m)) as [error w] eqn:E. cbn in H |- *.
  rewrite H, Hc. cbn. rewrite <- !app_assoc. reflexivity.
Qed.

(** Whatever the branch, the handler starts with the pending flag and the
    sign-up call, keeps the values, and touches no error but the root. *)
Lemma onSubmit_shape : forall v m,
  exists rest,
    calls (exec (onSubmit v) m)
    = calls m ++ SetIsPending true :: SignUp v :: rest
    /\ values (form (exec (onSubmit v) m)) = values (form m)
    /\ FieldErrors.unsetRoot (errors (form (exec (onSubmit v) m)))
       = FieldErrors.unsetRoot (errors (form m))
    /\ (forall sent, ~ In (SignUp sent) rest)
    /\ (Js.truthy (fst (signUp v (world m))) = None ->
        isPending (form (exec (onSubmit v) m)) = true
        /\ errors (form (exec (onSubmit v) m)) = errors (form m)
        /\ ~ In (SetIsPending false) rest).
Proof.
  intros v m.
  destruct (Js.truthy (fst (signUp v (world m)))) as [msg|] eqn:H.
  - rewrite (onSubmit_error _ _ _ H). cbn. eexists. split; [reflexivity|].
    split; [reflexivity|]. split; [reflexivity|].
    split; [|discriminate].
    intros sent [F|[F|[]]]; discriminate.
  - destruct checkSession as [refreshSession|] eqn:Hc.
    + rewrite (onSubmit_success_with_session _ _ _ Hc H). cbn.
      eexists. split; [reflexivity|]. split; [reflexivity|].
      split; [reflexivity|].
      split; [intros sent [F|[F|[]]]; discriminate|].
      intros _. split; [reflexivity|]. split; [reflexivity|].
      intros [F|[F|[]]]; discriminate.
    + rewrite (onSubmit_success_without_session _ _ Hc H). cbn.
      eexists. split; [reflexivity|]. split; [reflexivity|].
      split; [reflexivity|].
      split; [intros sent [F|[]]; discriminate|].
      intros _. split; [reflexivity|]. split; [reflexivity|].
      intros [F|[]]; discriminate.
Qed.

(** *** The handler between its awaits *)

Lemma onSubmit_start_exec : forall v m,
  exec (onSubmit_start v) m
  = mkMachine (mkFormState (values (form m)) (errors (form m)) true)
      (world m) (calls m ++ [SetIsPending true; SignUp v]).
Proof.
  intros v m. unfold exec, onSubmit_start, setIsPending, bind, called,
    modifyForm. cbn. rewrite <- app_assoc. reflexivity.
Qed.

Lemma onSubmit_afterSignUp_error : forall v m msg,
  Js.truthy (fst (signUp v (world m))) = Some msg ->
  exec (onSubmit_afterSignUp v) m
  = mkMachine
      (mkFormState (values (form m))
         (FieldErrors.setRoot (mkFieldError "server" msg) (errors (form m)))
         false)
      (snd (signUp v (world m)))
      (calls m ++ [SetErrorRoot (mkFieldError "server" msg);
                   SetIsPending false]).
Proof.
  intros v m msg H. unfold exec, onSubmit_afterSignUp, bind, setErrorRoot,
    setIsPending, bind, called, modifyForm.
  destruct (signUp v (world m)) as [error w]. cbn in H |- *.
  rewrite H. cbn. rewrite <- app_assoc. reflexivity.
Qed.

Lemma onSubmit_afterSignUp_with_session : forall v m refreshSession,
  checkSession = Some refreshSession ->
  Js.truthy (fst (signUp v (world m))) = None ->
  exec (onSubmit_afterSignUp v) m
  = mkMachine (form m) (snd (signUp v (world m))) (calls m ++ [CheckSession]).
Proof.
  intros v m refreshSession Hc H. unfold exec, onSubmit_afterSignUp, bind,
    called.
  destruct (signUp v (world m)) as [error w]. cbn in H |- *.
  rewrite H, Hc. reflexivity.
Qed.

Lemma onSubmit_afterSignUp_without_session : forall v m,
  checkSession = None ->
  Js.truthy (fst (signUp v (world m))) = None ->
  exec (onSubmit_afterSignUp v) m
  = mkMachine (form m) (refresh (snd (signUp v (world m))))
      (calls m ++ [RouterRefresh]).
Proof.
  intros v m Hc H. unfold exec, onSubmit_afterSignUp, bind, router_refresh,
    bind, called.
  destruct (signUp v (world m)) as [error w]. cbn in H |- *.
  rewrite H, Hc. reflexivity.
Qed.

Lemma onSubmit_afterSession_exec : forall m refreshSession,
  checkSession = Some refreshSession ->
  exec onSubmit_afterSession m
  = mkMachine (form m) (refresh (refreshSession (world m)))
      (calls m ++ [RouterRefresh]).
Proof.
  intros m refreshSession Hc. unfold exec, onSubmit_afterSession.
  rewrite Hc. reflexivity.
Qed.

(** The handler run at once is the handler run between its awaits. *)
Lemma onSubmit_in_phases : forall v m,
  exec (onSubmit v) m
  = match Js.truthy (fst (signUp v (world m))), checkSession with
    | None, Some _ =>
        exec onSubmit_afterSession
          (exec (onSubmit_afterSignUp v) (exec (onSubmit_start v) m))
    | _, _ => exec (onSubmit_afterSignUp v) (exec (onSubmit_start v) m)
    end.
Proof.
  intros v m. rewrite onSubmit_start_exec.
  set (m1 := mkMachine _ _ (calls m ++ _)).
  destruct (Js.truthy (fst (signUp v (world m)))) as [msg|] eqn:T.
  - rewrite (onSubmit_error _ _ _ T).
    change (world m) with (world m1) in T.
    rewrite (onSubmit_afterSignUp_error _ m1 _ T). cbn.
    rewrite <- app_assoc. reflexivity.
  - destruct checkSession as [refreshSession|] eqn:Hc.
    + rewrite (onSubmit_success_with_session _ _ _ Hc T).
      change (world m) with (world m1) in T.
      rewrite (onSubmit_afterSignUp_with_session _ m1 _ Hc T).
      rewrite (onSubmit_afterSession_exec _ _ Hc). cbn.
      rewrite <- !app_assoc. reflexivity.
    + rewrite (onSubmit_success_without_session _ _ Hc T).
      change (world m) with (world m1) in T.
      rewrite (onSubmit_afterSignUp_without_session _ m1 Hc T). cbn.
      rewrite <- app_assoc. reflexivity.
Qed.

(** Whatever the branch, the handler going on makes no sign-up call and
    keeps the values. *)
Lemma onSubmit_afterSignUp_shape : forall v m,
  exists rest,
    calls (exec (onSubmit_afterSignUp v) m) = calls m ++ rest
    /\ values (form (exec (onSubmit_afterSignUp v) m)) = values (form m)
    /\ (forall sent, ~ In (SignUp sent) rest).
Proof.
  intros v m.
  destruct (Js.truthy (fst (signUp v (world m)))) as [msg|] eqn:T.
  - rewrite (onSubmit_afterSignUp_error _ _ _ T). cbn. eexists.
    split; [reflexivity|]. split; [reflexivity|].
    intros sent [F|[F|[]]]; discriminate.
  - destruct checkSession as [refreshSession|] eqn:Hc.
    + rewrite (onSubmit_afterSignUp_with_session _ _ _ Hc T). cbn. eexists.
      split; [reflexivity|]. split; [reflexivity|].
      intros sent [F|[]]; discriminate.
    + rewrite (onSubmit_afterSignUp_without_session _ _ Hc T). cbn. eexists.
      split; [reflexivity|]. split; [reflexivity|].
      intros sent [F|[]]; discriminate.
Qed.

Lemma onSubmit_afterSession_shape : forall m,
  exists rest,
    calls (exec onSubmit_afterSession m) = calls m ++ rest
    /\ values (form (exec onSubmit_afterSession m)) = values (form m)
    /\ (forall sent, ~ In (SignUp sent) rest).
Proof.
  intros m. destruct checkSession as [refreshSession|] eqn:Hc.
  - rewrite (onSubmit_afterSession_exec _ _ Hc). cbn. eexists.
    split; [reflexivity|]. split; [reflexivity|].
    intros sent [F|[]]; discriminate.
  - unfold exec, onSubmit_afterSession. rewrite Hc. cbn. exists [].
    split; [rewrite app_nil_r; reflexivity|]. split; [reflexivity|].
    intros sent [].
Qed.

Lemma handleSubmit_start_values : forall m,
  values (form (exec (handleSubmit onSubmit_start) m)) = values (form m).
Proof.
  intros m.
  destruct (FieldErrors.isEmptyObject (yupResolver schema (values (form m))))
    eqn:E.
  - rewrite (handleSubmit_valid _ _ E), onSubmit_start_exec. reflexivity.
  - rewrite (handleSubmit_invalid _ _ E). reflexivity.
Qed.

Lemma handleSubmit_onSubmit_errors : forall m,
  FieldErrors.unsetRoot (errors (form (exec (handleSubmit onSubmit) m)))
  = yupResolver schema (values (form m)).
Proof.
  intros m.
  destruct (FieldErrors.isEmptyObject (yupResolver schema (values (form m))))
    eqn:E.
  - rewrite (handleSubmit_valid _ _ E).
    destruct (onSubmit_shape (values (form m))
                (mkMachine
                   (mkFormState (values (form m))
                      (yupResolver schema (values (form m)))
                      (isPending (form m)))
                   (world m) (calls m))) as (rest & _ & _ & H & _ & _).
    rewrite H. reflexivity.
  - rewrite (handleSubmit_invalid _ _ E). reflexivity.
Qed.

Lemma handleSubmit_onSubmit_values : forall m,
  values (form (exec (handleSubmit onSubmit) m)) = values (form m).
Proof.
  intros m.
  destruct (FieldErrors.isEmptyObject (yupResolver schema (values (form m))))
    eqn:E.
  - rewrite (handleSubmit_valid _ _ E).
    destruct (onSubmit_shape (values (form m))
                (mkMachine
                   (mkFormState (values (form m))
                      (yupResolver schema (values (form m)))
                      (isPending (form m)))
                   (world m) (calls m))) as (rest & _ & H & _ & _ & _).
    rewrite H. reflexivity.
  - rewrite (handleSubmit_invalid _ _ E). reflexivity.
Qed.

(** *** Validation blocks the submission *)

Lemma nth_error_mapi : forall (A B : Type) (f : A -> nat -> B) l k i,
  nth_error (mapi f k l) i
  = match nth_error l i with
    | Some x => Some (f x (k + i))
    | None => None
    end.
Proof.
  intros A B f. induction l as [|x l IH]; intros k [|i]; cbn;
    try reflexivity.
  - rewrite Nat.add_0_r. reflexivity.
  - rewrite IH. rewrite Nat.add_succ_r. reflexivity.
Qed.

(** The controls of a form that holds the errors of the resolver show
    the message of each failure, the last name apart. *)
Lemma resolver_shownMessages : forall v pending,
  shownMessages v (SignUpForm (mkFormState v (yupResolver schema v) pending)).
Proof.
  intros v pending.
  destruct (resolver_perFieldErrors v)
    as (Hf & _ & He & He' & Hp & Hp' & _ & Hc & Ht).
  unfold shownMessages.
  cbn [SignUpForm firstNameField emailField passwordField contactRows
       termsField termsHelperText formControl helperText errors values].
  split; [intros H; rewrite (Hf H); reflexivity|].
  split; [intros H; rewrite (He H); reflexivity|].
  split; [intros H H'; rewrite (He' H H'); reflexivity|].
  split; [intros H; rewrite (Hp H); reflexivity|].
  split; [intros H H'; rewrite (Hp' H H'); reflexivity|].
  split; [|intros H; rewrite (Ht H); reflexivity].
  intros index H. unfold fields. cbn [values].
  rewrite nth_error_mapi, H. eexists. split; [reflexivity|].
  cbn [contactInput formControl helperText Nat.add].
  rewrite (Hc index H). reflexivity.
Qed.

(** C1 (amended). When the values of the form fail the schema, the
    submission stores the errors of the resolver in the errors of the
    form (a non-empty set, holding for every failing field the message of
    that field); the controls of the first name, the email, the password,
    the terms and every contact-number row show the message of their own
    failure; and the submission stops there: the sign-up operation is not
    called, nor is anything else; the collaborators, the values and the
    pending flag are as before. *)
Theorem C1_invalid_submission_is_blocked : forall m,
  FieldErrors.isEmptyObject (yupResolver schema (values (form m))) = false ->
  errors (form (exec (handleSubmit onSubmit) m))
  = yupResolver schema (values (form m))
  /\ FieldErrors.isEmptyObject (errors (form (exec (handleSubmit onSubmit) m)))
     = false
  /\ listedFailure (values (form m))
  /\ perFieldErrors (values (form m))
       (errors (form (exec (handleSubmit onSubmit) m)))
  /\ shownMessages (values (form m))
       (SignUpForm (form (exec (handleSubmit onSubmit) m)))
  /\ calls (exec (handleSubmit onSubmit) m) = calls m
  /\ world (exec (handleSubmit onSubmit) m) = world m
  /\ values (form (exec (handleSubmit onSubmit) m)) = values (form m)
  /\ isPending (form (exec (handleSubmit onSubmit) m)) = isPending (form m).
Proof.
  intros m H. rewrite (handleSubmit_invalid _ _ H). cbn [form calls world].
  split; [reflexivity|]. split; [exact H|].
  split; [apply validation_fails_iff; exact H|].
  split; [apply resolver_perFieldErrors|].
  split; [apply resolver_shownMessages|].
  repeat split.
Qed.

(** X1. In every state a user can bring the form into, each sign-up call
    made so far carried values the schema accepts. *)
Lemma signUp_only_after_validation : forall m,
  reachable m ->
  forall sent, In (SignUp sent) (calls m) ->
  FieldErrors.isEmptyObject (yupResolver schema sent) = true.
Proof.
  intros m (w & evs & R). induction R as [|evs m ev m' R IH S].
  - intros sent [].
  - inversion S as [m0 ev0 errs0 Ed|m0 errs0|m0 index row errs0 Hr Hd
                    |m0 D|m0 D|m0 v L|m0 L]; subst; try exact IH.
    + intros sent Hin.
      destruct (FieldErrors.isEmptyObject
                  (yupResolver schema (values (form m)))) eqn:E.
      * rewrite (handleSubmit_valid _ _ E) in Hin.
        destruct (onSubmit_shape (values (form m))
                    (mkMachine
                       (mkFormState (values (form m))
                          (yupResolver schema (values (form m)))
                          (isPending (form m)))
                       (world m) (calls m))) as (rest & Hc & _ & _ & Hn & _).
        rewrite Hc in Hin. cbn in Hin.
        apply in_app_or in Hin. destruct Hin as [Hin|Hin]; [auto|].
        destruct Hin as [Hin|[Hin|Hin]]; [discriminate| |].
        -- injection Hin as <-. exact E.
        -- exfalso. exact (Hn _ Hin).
      * rewrite (handleSubmit_invalid _ _ E) in Hin. cbn in Hin. auto.
    + intros sent Hin.
      destruct (FieldErrors.isEmptyObject
                  (yupResolver schema (values (form m)))) eqn:E.
      * rewrite (handleSubmit_valid _ _ E), onSubmit_start_exec in Hin.
        cbn in Hin. apply in_app_or in Hin.
        destruct Hin as [Hin|[Hin|[Hin|[]]]]; [auto|discriminate|].
        injection Hin as <-. exact E.
      * rewrite (handleSubmit_invalid _ _ E) in Hin. cbn in Hin. auto.
    + intros sent Hin.
      destruct (onSubmit_afterSignUp_shape v m) as (rest & Hc & _ & Hn).
      rewrite Hc in Hin. apply in_app_or in Hin.
      destruct Hin as [Hin|Hin]; [auto|]. exfalso. exact (Hn _ Hin).
    + intros sent Hin.
      destruct (onSubmit_afterSession_shape m) as (rest & Hc & _ & Hn).
      rewrite Hc in Hin. apply in_app_or in Hin.
      destruct Hin as [Hin|Hin]; [auto|]. exfalso. exact (Hn _ Hin).
Qed.

(** *** The submit handler after the sign-up call *)

(** C2 (amended). When the values pass the schema and the sign-up
    operation returns a non-empty error message, the root error of the
    form is that message (type [server]), the alert shows it, the pending
    flag is cleared and the submit button enabled again, and the handler
    has made exactly four calls: neither the session refresh nor the
    route refresh is among them. *)
Theorem C2_server_error_is_shown : forall m msg,
  FieldErrors.isEmptyObject (yupResolver schema (values (form m))) = true ->
  fst (signUp (values (form m)) (world m)) = Some msg ->
  msg <> "" ->
  FieldErrors.root (errors (form (exec (handleSubmit onSubmit) m)))
  = Some (mkFieldError "server" msg)
  /\ alert (SignUpForm (form (exec (handleSubmit onSubmit) m))) = Some msg
  /\ isPending (form (exec (handleSubmit onSubmit) m)) = false
  /\ submitDisabled (SignUpForm (form (exec (handleSubmit onSubmit) m)))
     = false
  /\ calls (exec (handleSubmit onSubmit) m)
     = calls m ++ [SetIsPending true; SignUp (values (form m));
                   SetErrorRoot (mkFieldError "server" msg);
                   SetIsPending false]
  /\ ~ In CheckSession
         (skipn (List.length (calls m))
            (calls (exec (handleSubmit onSubmit) m)))
  /\ ~ In RouterRefresh
         (skipn (List.length (calls m))
            (calls (exec (handleSubmit onSubmit) m))).
Proof.
  intros m msg Hv He Hne.
  assert (Js.truthy (fst (signUp (values (form m)) (world m))) = Some msg)
    as Ht.
  { rewrite He. cbn. apply eqb_empty_false in Hne. rewrite Hne. reflexivity. }
  rewrite (handleSubmit_valid _ _ Hv).
  set (m1 := mkMachine _ _ _).
  change (world m) with (world m1) in Ht.
  rewrite (onSubmit_error _ m1 msg Ht). cbn.
  repeat (split; [reflexivity|]).
  rewrite !skipn_app, skipn_all, Nat.sub_diag. cbn.
  split; intros [F|[F|[F|[F|[]]]]]; discriminate.
Qed.

(** C3 (amended). When the values pass the schema and the sign-up
    operation returns no error (none, or the empty string): if the
    user-session collaborator provides [checkSession], the handler calls
    the session refresh after the sign-up and the route refresh after the
    session refresh, and the route refresh acts on the world the session
    refresh has left; if it provides none, the handler calls the route
    refresh directly after the sign-up, on the world the sign-up has
    left. *)
Theorem C3_session_refresh_precedes_route_refresh : forall m,
  FieldErrors.isEmptyObject (yupResolver schema (values (form m))) = true ->
  Js.truthy (fst (signUp (values (form m)) (world m))) = None ->
  (forall refreshSession,
     checkSession = Some refreshSession ->
     calls (exec (handleSubmit onSubmit) m)
     = calls m ++ [SetIsPending true; SignUp (values (form m));
                   CheckSession; RouterRefresh]
     /\ world (exec (handleSubmit onSubmit) m)
        = refresh
            (refreshSession (snd (signUp (values (form m)) (world m)))))
  /\ (checkSession = None ->
      calls (exec (handleSubmit onSubmit) m)
      = calls m ++ [SetIsPending true; SignUp (values (form m));
                    RouterRefresh]
      /\ world (exec (handleSubmit onSubmit) m)
         = refresh (snd (signUp (values (form m)) (world m)))).
Proof.
  intros m Hv Ht.
  rewrite (handleSubmit_valid _ _ Hv).
  set (m1 := mkMachine _ _ _).
  change (world m) with (world m1) in Ht.
  split.
  - intros refreshSession Hc.
    rewrite (onSubmit_success_with_session _ m1 _ Hc Ht).
    split; reflexivity.
  - intros Hc.
    rewrite (onSubmit_success_without_session _ m1 Hc Ht).
    split; reflexivity.
Qed.

(** C8. When the values pass the schema, the first call of the handler
    sets the pending flag and the second is the sign-up operation, on the
    values of the form; the values of the form are not modified.  When
    the sign-up returns no error, the pending flag is still set at the
    end, no later call clears it, and the errors of the form are those of
    the resolver (none). *)
Theorem C8_pending_set_first_and_kept_on_success : forall m,
  FieldErrors.isEmptyObject (yupResolver schema (values (form m))) = true ->
  exists rest,
    calls (exec (handleSubmit onSubmit) m)
    = calls m ++ SetIsPending true :: SignUp (values (form m)) :: rest
    /\ values (form (exec (handleSubmit onSubmit) m)) = values (form m)
    /\ (Js.truthy (fst (signUp (values (form m)) (world m))) = None ->
        isPending (form (exec (handleSubmit onSubmit) m)) = true
        /\ ~ In (SetIsPending false) rest
        /\ errors (form (exec (handleSubmit onSubmit) m))
           = yupResolver schema (values (form m))).
Proof.
  intros m Hv. rewrite (handleSubmit_valid _ _ Hv).
  destruct (onSubmit_shape (values (form m))
              (mkMachine
                 (mkFormState (values (form m))
                    (yupResolver schema (values (form m)))
                    (isPending (form m)))
                 (world m) (calls m))) as (rest & Hc & Hvals & _ & _ & Hs).
  exists rest. split; [exact Hc|]. split; [exact Hvals|].
  intros Ht. destruct (Hs Ht) as (Hp & He & Hn). auto.
Qed.

(** *** The schema at submission *)

(** C6. Submitting with a non-empty password of fewer than six
    characters leaves the error of type [min] with the message of the
    schema on the password, and the password control shows that message;
    submitting with a password of six characters or more leaves no error
    on the password. *)
Theorem C6_short_password_is_reported : forall m,
  (password (values (form m)) <> "" ->
   String.length (password (values (form m))) < 6 ->
   FieldErrors.password (errors (form (exec (handleSubmit onSubmit) m)))
   = Some (mkFieldError "min"
             "Password should need to be at least 6 characters")
   /\ helperText
        (passwordField (SignUpForm (form (exec (handleSubmit onSubmit) m))))
      = Some "Password should need to be at least 6 characters")
  /\ (6 <= String.length (password (values (form m))) ->
      FieldErrors.password (errors (form (exec (handleSubmit onSubmit) m)))
      = None).
Proof.
  intros m.
  assert (FieldErrors.password
            (errors (form (exec (handleSubmit onSubmit) m)))
          = FieldErrors.password (yupResolver schema (values (form m)))) as E.
  { rewrite <- handleSubmit_onSubmit_errors. reflexivity. }
  split.
  - intros Hne Hlen. cbn [SignUpForm passwordField formControl helperText].
    rewrite E.
    destruct (resolver_perFieldErrors (values (form m)))
      as (_ & _ & _ & _ & _ & H & _).
    rewrite (H Hne Hlen). split; reflexivity.
  - intros Hlen. rewrite E, resolver_password.
    destruct (String.eqb (password (values (form m))) "") eqn:Ee.
    + apply eqb_empty_true in Ee. rewrite Ee in Hlen. cbn in Hlen. lia.
    + destruct (Nat.leb_spec 6 (String.length (password (values (form m)))));
        [reflexivity|lia].
Qed.

(** C7. Submitting with a list of contact numbers of fewer than one entry
    leaves the error of type [min] with the message of the schema on the
    list, and no call is made. *)
Theorem C7_no_contact_number_is_reported : forall m,
  List.length (contactNumbers (values (form m))) < 1 ->
  FieldErrors.arrayRoot
    (FieldErrors.contactNumbers
       (errors (form (exec (handleSubmit onSubmit) m))))
  = Some (mkFieldError "min" "At least one contact number is required")
  /\ FieldErrors.isEmptyObject (errors (form (exec (handleSubmit onSubmit) m)))
     = false
  /\ calls (exec (handleSubmit onSubmit) m) = calls m.
Proof.
  intros m Hlen.
  assert (FieldErrors.isEmptyObject
            (yupResolver schema (values (form m))) = false) as E.
  { apply listedFailure_invalid. unfold listedFailure. tauto. }
  rewrite (handleSubmit_invalid _ _ E). cbn [form errors calls].
  destruct (resolver_perFieldErrors (values (form m)))
    as (_ & _ & _ & _ & _ & _ & H & _).
  rewrite (H Hlen). auto.
Qed.

(** *** The field array *)

Lemma length_replaceAt : forall (A : Type) (x : A) l i,
  List.length (replaceAt i x l) = List.length l.
Proof.
  intros A x. induction l as [|y l IH]; intros [|i]; cbn;
    try reflexivity.
  rewrite IH. reflexivity.
Qed.

(** Every rendered row carries the same [disabled]: whether exactly one
    field is left. *)
Lemma removeDisabled_row : forall s index row,
  nth_error (contactRows (SignUpForm s)) index = Some row ->
  removeDisabled row = (List.length (fields s) =? 1)%nat.
Proof.
  intros s index row H. cbn [SignUpForm contactRows] in H.
  rewrite nth_error_mapi in H.
  destruct (nth_error (fields s) index); [|discriminate].
  injection H as <-. reflexivity.
Qed.

Lemma compact_no_empty : forall l, ~ In "" l -> compact l = l.
Proof.
  unfold compact.
  induction l as [|item l IH]; intros N; [reflexivity|].
  cbn. destruct (String.eqb item "") eqn:E.
  - apply eqb_empty_true in E. exfalso. apply N. left. exact E.
  - cbn. rewrite IH; [reflexivity|]. intros I. apply N. right. exact I.
Qed.

Lemma length_removeAt_lt : forall (A : Type) (l : list A) i,
  i < List.length l -> S (List.length (removeAt i l)) = List.length l.
Proof.
  intros A. induction l as [|y l IH]; intros [|i] H; cbn in *; try lia.
  rewrite IH; lia.
Qed.

(** What an event does to the values of the form. *)
Lemma step_values : forall m ev m',
  step m ev m' ->
  values (form m')
  = match ev with
    | ClickAdd =>
        withContactNumbers
          (compact (contactNumbers (values (form m))) ++ [""])
          (values (form m))
    | ClickRemove index =>
        withContactNumbers
          (removeAt index (compact (contactNumbers (values (form m)))))
          (values (form m))
    | ClickSubmit | SignUpSettles | SessionSettles => values (form m)
    | _ => edit ev (values (form m))
    end.
Proof.
  intros m ev m' S.
  destruct S as [m ev errs E|m errs|m index row errs R D|m D|m D|m v L|m L].
  - destruct ev; try discriminate; reflexivity.
  - reflexivity.
  - reflexivity.
  - apply handleSubmit_onSubmit_values.
  - apply handleSubmit_start_values.
  - destruct (onSubmit_afterSignUp_shape v m) as (rest & _ & H & _). exact H.
  - destruct (onSubmit_afterSession_shape m) as (rest & _ & H & _). exact H.
Qed.

(** Typing, ticking, adding and removing leave the pending flag, the
    collaborators and the calls alone. *)
Lemma step_frame : forall m ev m',
  step m ev m' ->
  match ev with
  | ClickSubmit | SignUpSettles | SessionSettles => True
  | _ => isPending (form m') = isPending (form m)
         /\ world m' = world m /\ calls m' = calls m
  end.
Proof.
  intros m ev m' S.
  destruct S as [m ev errs E|m errs|m index row errs R D|m D|m D|m v L|m L];
    try exact I; try (repeat split).
  destruct ev; try discriminate; repeat split.
Qed.

(** A click on [Remove] takes effect on a rendered row only, and only
    when there are two rows or more. *)
Lemma step_remove_enabled : forall m index m',
  step m (ClickRemove index) m' ->
  index < List.length (contactNumbers (values (form m)))
  /\ 2 <= List.length (contactNumbers (values (form m))).
Proof.
  intros m index m' S.
  inversion S as [m0 ev0 errs Ed| |m0 i row errs Hr Hd| | | |]; subst;
    [discriminate|].
  pose proof (removeDisabled_row _ _ _ Hr) as D. rewrite Hd in D.
  symmetry in D. apply Nat.eqb_neq in D. unfold fields in D.
  cbn [SignUpForm contactRows] in Hr. unfold fields in Hr.
  rewrite nth_error_mapi in Hr.
  assert (index < List.length (contactNumbers (values (form m)))) as L.
  { apply nth_error_Some. intros N. rewrite N in Hr. discriminate. }
  split; [exact L|lia].
Qed.

Lemma step_without_add : forall m ev m',
  step m ev m' -> ev <> ClickAdd ->
  contactNumbers (values (form m)) = [] ->
  contactNumbers (values (form m')) = [].
Proof.
  intros m ev m' S N H. rewrite (step_values _ _ _ S).
  destruct ev; try congruence; cbn; try exact H.
  - rewrite H. destruct index; reflexivity.
  - rewrite H. destruct index; reflexivity.
Qed.

(** C5 (amended). The fresh form holds no contact number.  A click on
    [Remove] takes no effect while exactly one contact number is in the
    form, nor on an index without a row: it needs two rows or more.  No
    event other than a click on [Remove] empties a list that holds a
    contact number, and a click on [Remove] in a list none of whose
    entries is empty takes out exactly one entry. *)
Theorem C5_remove_disabled_on_last_row :
  (forall w : World, contactNumbers (values (form (initial w))) = [])
  /\ (forall m,
        List.length (contactNumbers (values (form m))) = 1 ->
        forall index m', ~ step m (ClickRemove index) m')
  /\ (forall m index m',
        step m (ClickRemove index) m' ->
        index < List.length (contactNumbers (values (form m)))
        /\ 2 <= List.length (contactNumbers (values (form m))))
  /\ (forall m ev m',
        step m ev m' ->
        (forall index, ev <> ClickRemove index) ->
        1 <= List.length (contactNumbers (values (form m))) ->
        1 <= List.length (contactNumbers (values (form m'))))
  /\ (forall m index m',
        step m (ClickRemove index) m' ->
        ~ In "" (contactNumbers (values (form m))) ->
        S (List.length (contactNumbers (values (form m'))))
        = List.length (contactNumbers (values (form m)))).
Proof.
  split; [reflexivity|]. split; [|split; [|split]].
  - intros m H index m' S.
    destruct (step_remove_enabled _ _ _ S) as (_ & L). lia.
  - exact step_remove_enabled.
  - intros m ev m' S N H. rewrite (step_values _ _ _ S).
    destruct ev; cbn; try exact H.
    + rewrite length_replaceAt. exact H.
    + rewrite length_app. cbn. lia.
    + exfalso. exact (N index eq_refl).
  - intros m index m' S N.
    destruct (step_remove_enabled _ _ _ S) as (L & _).
    rewrite (step_values _ _ _ S). cbn.
    rewrite (compact_no_empty _ N). apply length_removeAt_lt. exact L.
Qed.


(** C10. The fresh form has the empty string in the first name, the last
    name, the email and the password, has the terms unticked and no
    contact number; it renders no contact-number row, no sequence of
    events without [Add Contact Number] brings one, and a first click on
    [Add Contact Number] brings exactly one, empty. *)
Theorem C10_fresh_form_has_no_contact_number :
  firstName (values initialForm) = ""
  /\ lastName (values initialForm) = ""
  /\ email (values initialForm) = ""
  /\ password (values initialForm) = ""
  /\ terms (values initialForm) = false
  /\ contactNumbers (values initialForm) = []
  /\ contactRows (SignUpForm initialForm) = []
  /\ (forall w evs m,
        run (initial w) evs m -> ~ In ClickAdd evs ->
        contactRows (SignUpForm (form m)) = [])
  /\ (forall w m,
        step (initial w) ClickAdd m ->
        map (fun row => value (contactInput row))
          (contactRows (SignUpForm (form m))) = [""]).
Proof.
  repeat (split; [reflexivity|]). split.
  - intros w evs m R N.
    assert (contactNumbers (values (form m)) = []) as H.
    { induction R as [|evs m ev m' R IH S]; [reflexivity|].
      apply (step_without_add _ _ _ S).
      - intros ->. apply N, in_or_app. right. left. reflexivity.
      - apply IH. intros H. apply N, in_or_app. left. exact H. }
    cbn [SignUpForm contactRows]. unfold fields. rewrite H. reflexivity.
  - intros w m S. pose proof (step_values _ _ _ S) as V.
    cbn [SignUpForm contactRows]. unfold fields. rewrite V. reflexivity.
Qed.

(** *** The controls and their errors *)

(** X2. Every control but the last name shows the message of its own
    error, and shows one exactly when its own error is present. *)
Lemma own_error_shown : forall s,
  helperText (firstNameField (SignUpForm s))
  = option_map message (FieldErrors.firstName (errors s))
  /\ helperText (emailField (SignUpForm s))
     = option_map message (FieldErrors.email (errors s))
  /\ helperText (passwordField (SignUpForm s))
     = option_map message (FieldErrors.password (errors s))
  /\ termsHelperText (termsField (SignUpForm s))
     = option_map message (FieldErrors.terms (errors s))
  /\ (forall index row,
        nth_error (contactRows (SignUpForm s)) index = Some row ->
        helperText (contactInput row)
        = option_map message (FieldErrors.contactNumberAt (errors s) index)).
Proof.
  intros s. cbn.
  split; [destruct (FieldErrors.firstName (errors s)); reflexivity|].
  split; [destruct (FieldErrors.email (errors s)); reflexivity|].
  split; [destruct (FieldErrors.password (errors s)); reflexivity|].
  split; [destruct (FieldErrors.terms (errors s)); reflexivity|].
  intros index row H. rewrite nth_error_mapi in H.
  destruct (nth_error (fields s) index); [|discriminate].
  injection H as <-. cbn.
  destruct (FieldErrors.contactNumberAt (errors s) index); reflexivity.
Qed.

(** The control of the last name shows the error of the first name. *)
Lemma lastName_control_reads_firstName : forall s,
  helperText (lastNameField (SignUpForm s))
  = option_map message (FieldErrors.firstName (errors s))
  /\ error (lastNameField (SignUpForm s))
     = isSome (FieldErrors.firstName (errors s)).
Proof.
  intros s. cbn. destruct (FieldErrors.firstName (errors s)); split;
    reflexivity.
Qed.

(** *** What a submission leaves on the screen *)

(** After a submission the errors of the fields are those of the
    resolver, whichever branch the handler took. *)
Lemma submitted_field_errors : forall m,
  FieldErrors.firstName (errors (form (exec (handleSubmit onSubmit) m)))
  = FieldErrors.firstName (yupResolver schema (values (form m)))
  /\ FieldErrors.email (errors (form (exec (handleSubmit onSubmit) m)))
     = FieldErrors.email (yupResolver schema (values (form m)))
  /\ FieldErrors.password (errors (form (exec (handleSubmit onSubmit) m)))
     = FieldErrors.password (yupResolver schema (values (form m)))
  /\ FieldErrors.contactNumbers
       (errors (form (exec (handleSubmit onSubmit) m)))
     = FieldErrors.contactNumbers (yupResolver schema (values (form m)))
  /\ FieldErrors.terms (errors (form (exec (handleSubmit onSubmit) m)))
     = FieldErrors.terms (yupResolver schema (values (form m))).
Proof.
  intros m. rewrite <- (handleSubmit_onSubmit_errors m).
  repeat split.
Qed.

(** X3. After a submission, the control of each failing field among
    first name, email, password and terms is in its error state and shows
    the message of the schema for that failure: for an empty email and an
    empty password the message of [required], not that of the pattern or
    of the length. *)
Theorem failure_messages_are_shown : forall m,
  (firstName (values (form m)) = "" ->
   firstNameField (SignUpForm (form (exec (handleSubmit onSubmit) m)))
   = mkFieldView "First name" "" true (Some "First name is required"))
  /\ (email (values (form m)) = "" ->
      emailField (SignUpForm (form (exec (handleSubmit onSubmit) m)))
      = mkFieldView "Email address" "" true (Some "Email is required"))
  /\ (email (values (form m)) <> "" ->
      rEmail (email (values (form m))) = false ->
      emailField (SignUpForm (form (exec (handleSubmit onSubmit) m)))
      = mkFieldView "Email address" (email (values (form m))) true
          (Some "email must be a valid email"))
  /\ (password (values (form m)) = "" ->
      passwordField (SignUpForm (form (exec (handleSubmit onSubmit) m)))
      = mkFieldView "Password" "" true (Some "Password is required"))
  /\ (password (values (form m)) <> "" ->
      String.length (password (values (form m))) < 6 ->
      passwordField (SignUpForm (form (exec (handleSubmit onSubmit) m)))
      = mkFieldView "Password" (password (values (form m))) true
          (Some "Password should need to be at least 6 characters"))
  /\ (terms (values (form m)) = false ->
      termsField (SignUpForm (form (exec (handleSubmit onSubmit) m)))
      = mkTermsView false
          (Some "You must accept the terms and conditions")).
Proof.
  intros m.
  destruct (submitted_field_errors m) as (Ef & Ee & Ep & _ & Et).
  destruct (resolver_perFieldErrors (values (form m)))
    as (Hf & _ & He & He' & Hp & Hp' & _ & _ & Ht).
  pose proof (handleSubmit_onSubmit_values m) as V.
  cbn [SignUpForm firstNameField emailField passwordField termsField].
  rewrite V, Ef, Ee, Ep, Et.
  split; [intros H; rewrite (Hf H), H; reflexivity|].
  split; [intros H; rewrite (He H), H; reflexivity|].
  split; [intros H H'; rewrite (He' H H'); reflexivity|].
  split; [intros H; rewrite (Hp H), H; reflexivity|].
  split; [intros H H'; rewrite (Hp' H H'); reflexivity|].
  intros H; rewrite (Ht H), H; reflexivity.
Qed.

(** X4. When the empty list of contact numbers is the only failure, the
    submission is blocked and the form shows no message for it: no
    control has a helper text or an error state, there is no row and no
    alert. *)
Theorem empty_contact_list_shows_no_message : forall m,
  firstName (values (form m)) <> "" ->
  lastName (values (form m)) <> "" ->
  email (values (form m)) <> "" ->
  rEmail (email (values (form m))) = true ->
  6 <= String.length (password (values (form m))) ->
  terms (values (form m)) = true ->
  contactNumbers (values (form m)) = [] ->
  calls (exec (handleSubmit onSubmit) m) = calls m
  /\ FieldErrors.isEmptyObject (errors (form (exec (handleSubmit onSubmit) m)))
     = false
  /\ firstNameField (SignUpForm (form (exec (handleSubmit onSubmit) m)))
     = mkFieldView "First name" (firstName (values (form m))) false None
  /\ lastNameField (SignUpForm (form (exec (handleSubmit onSubmit) m)))
     = mkFieldView "Last name" (lastName (values (form m))) false None
  /\ emailField (SignUpForm (form (exec (handleSubmit onSubmit) m)))
     = mkFieldView "Email address" (email (values (form m))) false None
  /\ passwordField (SignUpForm (form (exec (handleSubmit onSubmit) m)))
     = mkFieldView "Password" (password (values (form m))) false None
  /\ contactRows (SignUpForm (form (exec (handleSubmit onSubmit) m))) = []
  /\ termsField (SignUpForm (form (exec (handleSubmit onSubmit) m)))
     = mkTermsView true None
  /\ alert (SignUpForm (form (exec (handleSubmit onSubmit) m))) = None.
Proof.
  intros m Hf Hl He Hr Hp Ht Hc.
  assert (FieldErrors.isEmptyObject
            (yupResolver schema (values (form m))) = false) as E.
  { apply listedFailure_invalid. unfold listedFailure.
    rewrite Hc. cbn. intuition lia. }
  rewrite (handleSubmit_invalid _ _ E).
  cbn [form calls errors values SignUpForm firstNameField lastNameField
       emailField passwordField contactRows termsField alert].
  unfold fields. cbn [values].
  rewrite resolver_firstName, resolver_email, resolver_password,
    resolver_terms, Hc, Ht, Hr.
  apply eqb_empty_false in Hf, He.
  rewrite Hf, He.
  assert (String.eqb (password (values (form m))) "" = false) as Hp'.
  { apply eqb_empty_false. intros H. rewrite H in Hp. cbn in Hp. lia. }
  rewrite Hp'.
  destruct (Nat.leb_spec 6 (String.length (password (values (form m)))));
    [|lia].
  repeat split. exact E.
Qed.

(** X5. After a submission every row of the contact numbers holds the
    number of its index, and it is in its error state with the message
    [Contact number is required] exactly when that number is empty. *)
Theorem contact_rows_after_submission : forall m index row,
  nth_error (contactRows (SignUpForm (form (exec (handleSubmit onSubmit) m))))
    index = Some row ->
  nth_error (contactNumbers (values (form m))) index
  = Some (value (contactInput row))
  /\ helperText (contactInput row)
     = (if String.eqb (value (contactInput row)) "" then
          Some "Contact number is required"
        else None)
  /\ error (contactInput row) = String.eqb (value (contactInput row)) "".
Proof.
  intros m index row H.
  destruct (submitted_field_errors m) as (_ & _ & _ & Ec & _).
  pose proof (handleSubmit_onSubmit_values m) as V.
  cbn [SignUpForm contactRows] in H. unfold fields in H.
  rewrite nth_error_mapi, V in H.
  destruct (nth_error (contactNumbers (values (form m))) index) as [item|]
    eqn:N; [|discriminate].
  injection H as <-. unfold FieldErrors.contactNumberAt.
  rewrite Ec, resolver_items, nth_error_map, N.
  cbn. unfold itemError.
  destruct (String.eqb item ""); repeat split.
Qed.

(** X6. A submission calls the sign-up operation exactly when the first
    name, the last name and the email are not empty, the email matches
    the pattern, the password has six characters or more, there is a
    contact number, none of the contact numbers is empty and the terms
    are ticked. *)
Theorem sign_up_called_iff_schema_accepts : forall m,
  In (SignUp (values (form m)))
    (skipn (List.length (calls m)) (calls (exec (handleSubmit onSubmit) m)))
  <-> (firstName (values (form m)) <> ""
       /\ lastName (values (form m)) <> ""
       /\ email (values (form m)) <> ""
       /\ rEmail (email (values (form m))) = true
       /\ 6 <= String.length (password (values (form m)))
       /\ 1 <= List.length (contactNumbers (values (form m)))
       /\ ~ In "" (contactNumbers (values (form m)))
       /\ terms (values (form m)) = true).
Proof.
  intros m.
  destruct (FieldErrors.isEmptyObject
              (yupResolver schema (values (form m)))) eqn:E.
  - pose proof (proj1 (resolver_empty_iff _) E) as N.
    unfold listedFailure in N.
    rewrite (handleSubmit_valid _ _ E).
    destruct (onSubmit_shape (values (form m))
                (mkMachine
                   (mkFormState (values (form m))
                      (yupResolver schema (values (form m)))
                      (isPending (form m)))
                   (world m) (calls m))) as (rest & Hc & _).
    rewrite Hc. cbn [calls].
    rewrite skipn_app, skipn_all, Nat.sub_diag. cbn.
    split; [intros _|tauto].
    destruct (rEmail (email (values (form m))));
      destruct (terms (values (form m)));
      intuition (try congruence; try lia).
  - rewrite (handleSubmit_invalid _ _ E). cbn [calls].
    rewrite skipn_all. split; [intros []|].
    intros (H1 & H2 & H3 & H4 & H5 & H6 & H7 & H8).
    apply validation_fails_iff in E. unfold listedFailure in E.
    assert (password (values (form m)) <> "") as Hp.
    { intros P. rewrite P in H5. cbn in H5. lia. }
    intuition (try congruence; try lia).
Qed.

(** X7. Submitting a form that fails validation a second time changes
    nothing: the state after two submissions is the state after one. *)
Theorem invalid_submission_is_idempotent : forall m,
  listedFailure (values (form m)) ->
  exec (handleSubmit onSubmit) (exec (handleSubmit onSubmit) m)
  = exec (handleSubmit onSubmit) m.
Proof.
  intros m H. apply listedFailure_invalid in H.
  rewrite (handleSubmit_invalid _ m H).
  rewrite handleSubmit_invalid; [reflexivity|exact H].
Qed.

(** X8. Whatever root error the form held before, after a submission the
    alert shows the message of the sign-up of this submission when that
    returned a non-empty one, and nothing otherwise, also when validation
    blocked the submission; the submit button is then disabled exactly
    when the sign-up went through without error, or when it was disabled
    before and validation failed. *)
Theorem alert_shows_latest_submission_only : forall m,
  alert (SignUpForm (form (exec (handleSubmit onSubmit) m)))
  = (if FieldErrors.isEmptyObject (yupResolver schema (values (form m)))
     then Js.truthy (fst (signUp (values (form m)) (world m)))
     else None)
  /\ submitDisabled (SignUpForm (form (exec (handleSubmit onSubmit) m)))
     = (if FieldErrors.isEmptyObject (yupResolver schema (values (form m)))
        then match Js.truthy (fst (signUp (values (form m)) (world m))) with
             | Some _ => false
             | None => true
             end
        else isPending (form m)).
Proof.
  intros m.
  destruct (FieldErrors.isEmptyObject
              (yupResolver schema (values (form m)))) eqn:E.
  - rewrite (handleSubmit_valid _ _ E).
    set (m1 := mkMachine _ _ _).
    change (world m) with (world m1).
    destruct (Js.truthy (fst (signUp (values (form m)) (world m1))))
      as [msg|] eqn:T.
    + rewrite (onSubmit_error _ m1 msg T). split; reflexivity.
    + destruct checkSession as [refreshSession|] eqn:Hc.
      * rewrite (onSubmit_success_with_session _ m1 _ Hc T).
        split; reflexivity.
      * rewrite (onSubmit_success_without_session _ m1 Hc T).
        split; reflexivity.
  - rewrite (handleSubmit_invalid _ _ E). split; reflexivity.
Qed.

(** *** The pending flag over the life of the form *)

Lemma calls_extend : forall (l rest : list Call) (c : Call),
  ~ In RouterRefresh l ->
  ~ In RouterRefresh rest ->
  ~ In RouterRefresh (removelast (l ++ rest ++ [c]))
  /\ hd_error (rev (l ++ rest ++ [c])) = Some c.
Proof.
  intros l rest c Nl Nr. rewrite app_assoc, removelast_last.
  split.
  - intros I. apply in_app_or in I. tauto.
  - rewrite rev_app_distr. reflexivity.
Qed.

Lemma last_or_before : forall (l : list Call) (c : Call),
  In c l -> hd_error (rev l) = Some c \/ In c (removelast l).
Proof.
  intros l c I.
  destruct l as [|x l]; [destruct I|].
  destruct (exists_last (l:=x :: l)) as (l' & y & E); [discriminate|].
  rewrite E in I |- *. rewrite removelast_last, rev_app_distr. cbn.
  apply in_app_or in I. destruct I as [I|[->|[]]]; [right; exact I|].
  left. reflexivity.
Qed.

Lemma last_is_in : forall (l : list Call) (c : Call),
  hd_error (rev l) = Some c -> In c l.
Proof.
  intros l c H. apply in_rev. destruct (rev l); [discriminate|].
  injection H as ->. left. reflexivity.
Qed.

Lemma before_last : forall (l1 l2 : list Call) (c : Call),
  l2 <> [] -> In c (removelast (l1 ++ c :: l2)).
Proof.
  intros l1 l2 c N.
  destruct (exists_last N) as (l' & y & ->).
  change (l1 ++ c :: l' ++ [y]) with (l1 ++ (c :: l') ++ [y]).
  rewrite app_assoc, removelast_last.
  apply in_or_app. right. left. reflexivity.
Qed.

(** The pending flag follows the last call: it is set while the handler
    awaits the sign-up or the session refresh and after the route
    refresh, and only then; no call but the last is a route refresh. *)
Lemma pending_invariant : forall m,
  reachable m ->
  ~ In RouterRefresh (removelast (calls m))
  /\ match lastCall m with
     | None | Some (SetIsPending false) => isPending (form m) = false
     | Some (SignUp _) | Some CheckSession | Some RouterRefresh =>
         isPending (form m) = true
     | Some (SetIsPending true) | Some (SetErrorRoot _) => False
     end.
Proof.
  intros m (w & evs & R). induction R as [|evs m ev m' R IH S].
  - split; [intros []|reflexivity].
  - destruct IH as (N & P).
    assert (lastCall m <> Some RouterRefresh -> ~ In RouterRefresh (calls m))
      as Nall.
    { intros Hl I. destruct (last_or_before _ _ I); [exact (Hl H)|tauto]. }
    inversion S as [m0 ev0 errs0 Ed|m0 errs0|m0 index row errs0 Hr Hd
                    |m0 D|m0 D|m0 v L|m0 L]; subst;
      try (split; [exact N|exact P]).
    + (* the click and the settling at once *)
      cbn in D.
      assert (~ In RouterRefresh (calls m)) as N'.
      { apply Nall. intros Hl. rewrite Hl in P. congruence. }
      destruct (FieldErrors.isEmptyObject
                  (yupResolver schema (values (form m)))) eqn:E.
      * rewrite (handleSubmit_valid _ _ E). set (m1 := mkMachine _ _ _).
        destruct (Js.truthy (fst (signUp (values (form m)) (world m1))))
          as [msg|] eqn:T.
        -- rewrite (onSubmit_error _ m1 msg T).
           destruct (calls_extend (calls m)
                       [SetIsPending true; SignUp (values (form m));
                        SetErrorRoot (mkFieldError "server" msg)]
                       (SetIsPending false) N') as (N1 & L1).
           { intros [F|[F|[F|[]]]]; discriminate. }
           subst m1. unfold lastCall. cbn [calls form isPending app] in *.
           rewrite L1. split; [exact N1|reflexivity].
        -- destruct checkSession as [refreshSession|] eqn:Hc.
           ++ rewrite (onSubmit_success_with_session _ m1 _ Hc T).
              destruct (calls_extend (calls m)
                          [SetIsPending true; SignUp (values (form m));
                           CheckSession] RouterRefresh N') as (N1 & L1).
              { intros [F|[F|[F|[]]]]; discriminate. }
              subst m1. unfold lastCall. cbn [calls form isPending app] in *.
              rewrite L1. split; [exact N1|reflexivity].
           ++ rewrite (onSubmit_success_without_session _ m1 Hc T).
              destruct (calls_extend (calls m)
                          [SetIsPending true; SignUp (values (form m))]
                          RouterRefresh N') as (N1 & L1).
              { intros [F|[F|[]]]; discriminate. }
              subst m1. unfold lastCall. cbn [calls form isPending app] in *.
              rewrite L1. split; [exact N1|reflexivity].
      * rewrite (handleSubmit_invalid _ _ E). split; [exact N|exact P].
    + (* the click, up to the call of the sign-up *)
      cbn in D.
      assert (~ In RouterRefresh (calls m)) as N'.
      { apply Nall. intros Hl. rewrite Hl in P. congruence. }
      destruct (FieldErrors.isEmptyObject
                  (yupResolver schema (values (form m)))) eqn:E.
      * rewrite (handleSubmit_valid _ _ E), onSubmit_start_exec.
        destruct (calls_extend (calls m) [SetIsPending true]
                    (SignUp (values (form m))) N') as (N1 & L1).
        { intros [F|[]]; discriminate. }
        unfold lastCall. cbn [calls form isPending app] in *.
        rewrite L1. split; [exact N1|reflexivity].
      * rewrite (handleSubmit_invalid _ _ E). split; [exact N|exact P].
    + (* the sign-up settles *)
      assert (~ In RouterRefresh (calls m)) as N'.
      { apply Nall. rewrite L. discriminate. }
      rewrite L in P.
      destruct (Js.truthy (fst (signUp v (world m)))) as [msg|] eqn:T.
      * rewrite (onSubmit_afterSignUp_error _ _ _ T).
        destruct (calls_extend (calls m)
                    [SetErrorRoot (mkFieldError "server" msg)]
                    (SetIsPending false) N') as (N1 & L1).
        { intros [F|[]]; discriminate. }
        unfold lastCall. cbn [calls form isPending app] in *.
        rewrite L1. split; [exact N1|reflexivity].
      * destruct checkSession as [refreshSession|] eqn:Hc.
        -- rewrite (onSubmit_afterSignUp_with_session _ _ _ Hc T).
           destruct (calls_extend (calls m) [] CheckSession N')
             as (N1 & L1); [intros []|].
           unfold lastCall. cbn [calls form app] in *.
           rewrite L1. split; [exact N1|exact P].
        -- rewrite (onSubmit_afterSignUp_without_session _ _ Hc T).
           destruct (calls_extend (calls m) [] RouterRefresh N')
             as (N1 & L1); [intros []|].
           unfold lastCall. cbn [calls form app] in *.
           rewrite L1. split; [exact N1|exact P].
    + (* the session refresh settles *)
      assert (~ In RouterRefresh (calls m)) as N'.
      { apply Nall. rewrite L. discriminate. }
      rewrite L in P.
      destruct checkSession as [refreshSession|] eqn:Hc.
      * rewrite (onSubmit_afterSession_exec _ _ Hc).
        destruct (calls_extend (calls m) [] RouterRefresh N')
          as (N1 & L1); [intros []|].
        unfold lastCall. cbn [calls form app] in *.
        rewrite L1. split; [exact N1|exact P].
      * unfold exec, onSubmit_afterSession. rewrite Hc. cbn.
        rewrite L. split; [exact N|exact P].
Qed.

(** X9. In every state the form can get into, the states in which a
    submission is under way among them, the submit button is disabled
    exactly when the handler awaits the sign-up or the session refresh,
    or when the route refresh has been requested; a route refresh is the
    last call made, so it is requested at most once and no sign-up
    follows it; and while the button is disabled no click on it takes
    effect. *)
Theorem route_refresh_is_last_and_locks_the_form : forall m,
  reachable m ->
  (submitDisabled (SignUpForm (form m)) = true
   <-> (exists v, lastCall m = Some (SignUp v))
       \/ lastCall m = Some CheckSession
       \/ In RouterRefresh (calls m))
  /\ (forall l1 l2, calls m = l1 ++ RouterRefresh :: l2 -> l2 = [])
  /\ (submitDisabled (SignUpForm (form m)) = true ->
      forall m', ~ step m ClickSubmit m').
Proof.
  intros m R. cbn [SignUpForm submitDisabled].
  destruct (pending_invariant m R) as (N & P).
  split; [|split].
  - split.
    + intros H. unfold lastCall in *.
      destruct (hd_error (rev (calls m))) as [[[|]| | | |]|] eqn:L;
        try congruence; try contradiction.
      * left. eexists. reflexivity.
      * right. left. reflexivity.
      * right. right. apply last_is_in. exact L.
    + intros [(v & L)|[L|I]].
      * rewrite L in P. exact P.
      * rewrite L in P. exact P.
      * destruct (last_or_before _ _ I) as [L|B]; [|contradiction].
        unfold lastCall in P. rewrite L in P. exact P.
  - intros l1 l2 E. destruct l2 as [|c l2]; [reflexivity|]. exfalso.
    apply N. rewrite E. apply before_last. discriminate.
  - intros H m' S.
    inversion S as [m0 ev0 errs Ed| | |m0 D|m0 D| |]; subst.
    + discriminate.
    + cbn in D. congruence.
    + cbn in D. congruence.
Qed.

(** *** Adding and removing rows *)

Lemma removeAt_firstn_skipn : forall (A : Type) (l : list A) i,
  removeAt i l = firstn i l ++ skipn (S i) l.
Proof.
  intros A. induction l as [|x l IH]; intros [|i]; cbn; try reflexivity.
  rewrite IH. reflexivity.
Qed.

Lemma removeAt_out_of_range : forall (A : Type) (l : list A) i,
  List.length l <= i -> removeAt i l = l.
Proof.
  intros A. induction l as [|x l IH]; intros [|i] H; cbn in *;
    try reflexivity; try lia.
  rewrite IH; [reflexivity|lia].
Qed.

Lemma compact_with_empty_last : forall l,
  ~ In "" l -> compact (l ++ [""]) = l.
Proof.
  intros l N. unfold compact. rewrite filter_app. cbn.
  rewrite app_nil_r. apply compact_no_empty. exact N.
Qed.

(** X10. A click on [Remove] takes effect only on a row that exists and
    only when there are two rows or more.  The list becomes the non-empty
    contact numbers without the one at the index of the row among them;
    when no contact number is empty that is the list without the number
    of that row, the numbers before it and after it in their order.
    Every other value, the pending flag and the calls stay as they
    were. *)
Theorem remove_takes_out_one_row : forall m index m',
  step m (ClickRemove index) m' ->
  index < List.length (contactNumbers (values (form m)))
  /\ 2 <= List.length (contactNumbers (values (form m)))
  /\ contactNumbers (values (form m'))
     = firstn index (compact (contactNumbers (values (form m))))
       ++ skipn (S index) (compact (contactNumbers (values (form m))))
  /\ (~ In "" (contactNumbers (values (form m))) ->
      contactNumbers (values (form m'))
      = firstn index (contactNumbers (values (form m)))
        ++ skipn (S index) (contactNumbers (values (form m)))
      /\ S (List.length (contactNumbers (values (form m'))))
         = List.length (contactNumbers (values (form m))))
  /\ firstName (values (form m')) = firstName (values (form m))
  /\ lastName (values (form m')) = lastName (values (form m))
  /\ email (values (form m')) = email (values (form m))
  /\ password (values (form m')) = password (values (form m))
  /\ terms (values (form m')) = terms (values (form m))
  /\ isPending (form m') = isPending (form m)
  /\ calls m' = calls m.
Proof.
  intros m index m' S.
  destruct (step_remove_enabled _ _ _ S) as (L & L2).
  destruct (step_frame _ _ _ S) as (Hp & _ & Hc).
  rewrite (step_values _ _ _ S). cbn. rewrite removeAt_firstn_skipn.
  split; [exact L|]. split; [exact L2|]. split; [reflexivity|].
  split; [|repeat split; assumption].
  intros N. rewrite (compact_no_empty _ N). split; [reflexivity|].
  rewrite <- removeAt_firstn_skipn. apply length_removeAt_lt. exact L.
Qed.

(** X11. With at least one contact number in the form and none of them
    empty, after a click on [Add Contact Number] the [Remove] button of
    the new row is enabled, and a click on it gives back the values the
    form had. *)
Theorem add_then_remove_restores_values : forall m m1,
  step m ClickAdd m1 ->
  1 <= List.length (contactNumbers (values (form m))) ->
  ~ In "" (contactNumbers (values (form m))) ->
  (exists m2,
     step m1 (ClickRemove (List.length (contactNumbers (values (form m)))))
       m2)
  /\ (forall m2,
        step m1 (ClickRemove (List.length (contactNumbers (values (form m)))))
          m2 ->
        values (form m2) = values (form m)).
Proof.
  intros m m1 S H N. pose proof (step_values _ _ _ S) as V.
  rewrite (compact_no_empty _ N) in V. split.
  - eexists. eapply (step_remove _ _ _ FieldErrors.empty).
    + cbn [SignUpForm contactRows]. unfold fields.
      rewrite V, nth_error_mapi. cbn [contactNumbers withContactNumbers].
      rewrite nth_error_app2, Nat.sub_diag by lia. reflexivity.
    + cbn [removeDisabled]. rewrite length_app. cbn.
      destruct (Nat.eqb_spec
                  (List.length (contactNumbers (values (form m))) + 1) 1);
        [lia|reflexivity].
  - intros m2 S2. rewrite (step_values _ _ _ S2), V.
    cbn [contactNumbers withContactNumbers].
    rewrite (compact_with_empty_last _ N).
    rewrite removeAt_out_of_range by lia.
    destruct (values (form m)). reflexivity.
Qed.

(** *** A failed sign-up and a second attempt *)

(** X12. When the sign-up of a valid form fails with a message, the form
    shows it and can be submitted again; when the sign-up of the second
    submission goes through, the alert is gone, the pending flag stays
    set, and the calls of the two submissions follow each other: the
    four of the failure, then the flag, the sign-up, the session refresh
    if there is one, and the route refresh. *)
Theorem failed_sign_up_then_retry : forall m msg,
  FieldErrors.isEmptyObject (yupResolver schema (values (form m))) = true ->
  Js.truthy (fst (signUp (values (form m)) (world m))) = Some msg ->
  Js.truthy
    (fst (signUp (values (form m))
            (snd (signUp (values (form m)) (world m))))) = None ->
  alert (SignUpForm (form (exec (handleSubmit onSubmit) m))) = Some msg
  /\ step (exec (handleSubmit onSubmit) m) ClickSubmit
       (exec (handleSubmit onSubmit) (exec (handleSubmit onSubmit) m))
  /\ alert
       (SignUpForm
          (form (exec (handleSubmit onSubmit)
                   (exec (handleSubmit onSubmit) m)))) = None
  /\ isPending
       (form (exec (handleSubmit onSubmit) (exec (handleSubmit onSubmit) m)))
     = true
  /\ calls (exec (handleSubmit onSubmit) (exec (handleSubmit onSubmit) m))
     = calls m
       ++ [SetIsPending true; SignUp (values (form m));
           SetErrorRoot (mkFieldError "server" msg); SetIsPending false;
           SetIsPending true; SignUp (values (form m))]
       ++ match checkSession with
          | Some _ => [CheckSession]
          | None => []
          end
       ++ [RouterRefresh].
Proof.
  intros m msg Hv T1 T2.
  assert (exec (handleSubmit onSubmit) m
          = mkMachine
              (mkFormState (values (form m))
                 (FieldErrors.setRoot (mkFieldError "server" msg)
                    (yupResolver schema (values (form m))))
                 false)
              (snd (signUp (values (form m)) (world m)))
              (calls m ++ [SetIsPending true; SignUp (values (form m));
                           SetErrorRoot (mkFieldError "server" msg);
                           SetIsPending false])) as E1.
  { rewrite (handleSubmit_valid _ _ Hv).
    set (m1 := mkMachine _ _ _).
    change (world m) with (world m1) in T1 |- *.
    rewrite (onSubmit_error _ m1 msg T1). reflexivity. }
  split; [rewrite E1; reflexivity|].
  split; [apply step_submit; rewrite E1; reflexivity|].
  rewrite E1. set (m2 := mkMachine _ _ _).
  assert (FieldErrors.isEmptyObject
            (yupResolver schema (values (form m2))) = true) as Hv2
    by exact Hv.
  rewrite (handleSubmit_valid _ _ Hv2).
  set (m3 := mkMachine _ _ _).
  change (snd (signUp (values (form m)) (world m))) with (world m3) in T2.
  change (values (form m)) with (values (form m2)) in T2.
  destruct checkSession as [refreshSession|] eqn:Hc.
  - rewrite (onSubmit_success_with_session _ m3 _ Hc T2). cbn.
    rewrite <- !app_assoc. repeat split.
  - rewrite (onSubmit_success_without_session _ m3 Hc T2). cbn.
    rewrite <- !app_assoc. repeat split.
Qed.

(** X13. What a submission does to the collaborators: nothing when
    validation fails; the sign-up alone when it returns a non-empty
    error; otherwise the sign-up, then the session refresh if there is
    one, then the route refresh, each on what the one before has left. *)
Theorem collaborators_touched_by_a_submission : forall m,
  world (exec (handleSubmit onSubmit) m)
  = (if FieldErrors.isEmptyObject (yupResolver schema (values (form m)))
     then
       match Js.truthy (fst (signUp (values (form m)) (world m))) with
       | Some _ => snd (signUp (values (form m)) (world m))
       | None =>
           refresh
             (match checkSession with
              | Some refreshSession =>
                  refreshSession (snd (signUp (values (form m)) (world m)))
              | None => snd (signUp (values (form m)) (world m))
              end)
       end
     else world m).
Proof.
  intros m.
  destruct (FieldErrors.isEmptyObject
              (yupResolver schema (values (form m)))) eqn:E.
  - rewrite (handleSubmit_valid _ _ E).
    set (m1 := mkMachine _ _ _).
    change (world m) with (world m1).
    destruct (Js.truthy (fst (signUp (values (form m)) (world m1))))
      as [msg|] eqn:T.
    + rewrite (onSubmit_error _ m1 msg T). reflexivity.
    + destruct checkSession as [refreshSession|] eqn:Hc.
      * rewrite (onSubmit_success_with_session _ m1 _ Hc T). reflexivity.
      * rewrite (onSubmit_success_without_session _ m1 Hc T). reflexivity.
  - rewrite (handleSubmit_invalid _ _ E). reflexivity.
Qed.

End SignUpForm.

Arguments handleSubmit rEmail {World} onValid _.
Arguments onSubmit {World} signUp checkSession refresh v _.
Arguments onSubmit_start {World} v _.
Arguments lastCall {World} m.
Arguments append {World} text errs _.
Arguments remove {World} index errs _.
Arguments step rEmail {World} signUp checkSession refresh _ _ _.
Arguments run rEmail {World} signUp checkSession refresh m0 _ _.
Arguments reachable rEmail {World} signUp checkSession refresh m.

(** ** The properties on sample data *)

(** C4. Ada leaves the last name empty and submits.  The form holds the
    error [Last name is required] for the last name, and the control of
    the last name shows no message and no error state.  With the first
    name left empty instead, the last name has no error and its control
    shows [First name is required]. *)
Theorem C4_lastName_control_shows_firstName_error :
  FieldErrors.lastName
    (errors (form (exec (handleSubmit containsAt
                           (onSubmit acceptSignUp (Some sessionRefresh)
                              routeRefresh))
                     (filled adaNoLastName))))
  = Some (mkFieldError "required" "Last name is required")
  /\ lastNameField
       (SignUpForm
          (form (exec (handleSubmit containsAt
                         (onSubmit acceptSignUp (Some sessionRefresh)
                            routeRefresh))
                   (filled adaNoLastName))))
     = mkFieldView "Last name" "" false None
  /\ FieldErrors.lastName
       (errors (form (exec (handleSubmit containsAt
                              (onSubmit acceptSignUp (Some sessionRefresh)
                                 routeRefresh))
                        (filled adaNoFirstName))))
     = None
  /\ lastNameField
       (SignUpForm
          (form (exec (handleSubmit containsAt
                         (onSubmit acceptSignUp (Some sessionRefresh)
                            routeRefresh))
                   (filled adaNoFirstName))))
     = mkFieldView "Last name" "Lovelace" true
         (Some "First name is required").
Proof. repeat split. Qed.

(** C1 on Ada's form without a first name: validation fails, the error
    of the first name is stored and shown, and nothing is called. *)
Lemma C1_witness_missing_first_name :
  let m := filled adaNoFirstName in
  let m' := exec (handleSubmit containsAt
                    (onSubmit acceptSignUp (Some sessionRefresh) routeRefresh))
              m in
  FieldErrors.isEmptyObject
    (yupResolver (schema containsAt) (values (form m))) = false
  /\ errors (form m') = yupResolver (schema containsAt) adaNoFirstName
  /\ FieldErrors.firstName (errors (form m'))
     = Some (mkFieldError "required" "First name is required")
  /\ helperText (firstNameField (SignUpForm (form m')))
     = Some "First name is required"
  /\ calls m' = [].
Proof.
  cbv zeta. split; [reflexivity|].
  destruct (C1_invalid_submission_is_blocked containsAt (list string)
              acceptSignUp (Some sessionRefresh) routeRefresh
              (filled adaNoFirstName) eq_refl)
    as (He & _ & _ & Hf & Hs & Hc & _).
  split; [exact He|].
  destruct Hf as (Hf & _). destruct Hs as (Hs & _).
  split; [apply Hf; reflexivity|].
  split; [apply Hs; reflexivity|exact Hc].
Defined.

(** C1 as stated fails where no control reads the error.  With the empty
    list of contact numbers as the only failure the form after the
    submission shows no message at all; with the empty last name as the
    only failure the error of the last name is stored and the form shows
    no message either. *)
Lemma C1_counterexample_nothing_shown :
  let submit := exec (handleSubmit containsAt
                        (onSubmit acceptSignUp (Some sessionRefresh)
                           routeRefresh)) in
  FieldErrors.isEmptyObject (yupResolver (schema containsAt) adaNoContact)
  = false
  /\ SignUpForm (form (submit (filled adaNoContact)))
     = mkView (mkFieldView "First name" "Ada" false None)
         (mkFieldView "Last name" "Lovelace" false None)
         (mkFieldView "Email address" "ada@example.org" false None)
         (mkFieldView "Password" "engine" false None)
         []
         (mkTermsView true None)
         None false
  /\ FieldErrors.isEmptyObject (yupResolver (schema containsAt) adaNoLastName)
     = false
  /\ FieldErrors.lastName (errors (form (submit (filled adaNoLastName))))
     = Some (mkFieldError "required" "Last name is required")
  /\ SignUpForm (form (submit (filled adaNoLastName)))
     = mkView (mkFieldView "First name" "Ada" false None)
         (mkFieldView "Last name" "" false None)
         (mkFieldView "Email address" "ada@example.org" false None)
         (mkFieldView "Password" "engine" false None)
         [mkContactRow (mkFieldView "Contact Number" "5550100" false None)
            true]
         (mkTermsView true None)
         None false.
Proof. cbv zeta. repeat split. Qed.

(** C2 on Ada's form when the sign-up is rejected with a message. *)
Lemma C2_witness_rejected_sign_up :
  let m := filled ada in
  let m' := exec (handleSubmit containsAt
                    (onSubmit (rejectSignUp "Email already registered")
                       (Some sessionRefresh) routeRefresh))
              m in
  FieldErrors.isEmptyObject
    (yupResolver (schema containsAt) (values (form m))) = true
  /\ fst (rejectSignUp "Email already registered" (values (form m)) (world m))
     = Some "Email already registered"
  /\ alert (SignUpForm (form m')) = Some "Email already registered"
  /\ isPending (form m') = false
  /\ calls m'
     = [SetIsPending true; SignUp ada;
        SetErrorRoot (mkFieldError "server" "Email already registered");
        SetIsPending false].
Proof.
  cbv zeta. split; [reflexivity|]. split; [reflexivity|].
  destruct (C2_server_error_is_shown containsAt (list string)
              (rejectSignUp "Email already registered")
              (Some sessionRefresh) routeRefresh (filled ada)
              "Email already registered" eq_refl eq_refl)
    as (_ & Ha & Hp & _ & Hc & _).
  - discriminate.
  - split; [exact Ha|]. split; [exact Hp|exact Hc].
Defined.

(** C2 as stated fails on the empty message: the handler takes it for no
    error, sets no root error, keeps the pending flag and goes on to the
    session refresh and the route refresh. *)
Lemma C2_counterexample_empty_message :
  let m := filled ada in
  let m' := exec (handleSubmit containsAt
                    (onSubmit (rejectSignUp "") (Some sessionRefresh)
                       routeRefresh))
              m in
  FieldErrors.isEmptyObject
    (yupResolver (schema containsAt) (values (form m))) = true
  /\ fst (rejectSignUp "" (values (form m)) (world m)) = Some ""
  /\ FieldErrors.root (errors (form m')) = None
  /\ alert (SignUpForm (form m')) = None
  /\ isPending (form m') = true
  /\ calls m' = [SetIsPending true; SignUp ada; CheckSession; RouterRefresh].
Proof. cbv zeta. repeat split. Qed.

(** C3 on Ada's form when the sign-up is accepted: with a session
    collaborator that provides [checkSession], and with one that does
    not. *)
Lemma C3_witness_accepted_sign_up :
  let m := filled ada in
  let m' := exec (handleSubmit containsAt
                    (onSubmit acceptSignUp (Some sessionRefresh) routeRefresh))
              m in
  let m'' := exec (handleSubmit containsAt
                     (onSubmit acceptSignUp None routeRefresh))
               m in
  FieldErrors.isEmptyObject
    (yupResolver (schema containsAt) (values (form m))) = true
  /\ Js.truthy (fst (acceptSignUp (values (form m)) (world m))) = None
  /\ (calls m' = [SetIsPending true; SignUp ada; CheckSession; RouterRefresh]
      /\ world m' = ["signUp"; "checkSession"; "refresh"])
  /\ (calls m'' = [SetIsPending true; SignUp ada; RouterRefresh]
      /\ world m'' = ["signUp"; "refresh"]).
Proof.
  cbv zeta. split; [reflexivity|]. split; [reflexivity|]. split.
  - exact (proj1 (C3_session_refresh_precedes_route_refresh containsAt
                    (list string) acceptSignUp (Some sessionRefresh)
                    routeRefresh (filled ada) eq_refl eq_refl)
             sessionRefresh eq_refl).
  - exact (proj2 (C3_session_refresh_precedes_route_refresh containsAt
                    (list string) acceptSignUp None routeRefresh
                    (filled ada) eq_refl eq_refl)
             eq_refl).
Defined.

(** C3 as stated fails when the session collaborator provides no
    [checkSession]: the route refresh follows the sign-up directly. *)
Lemma C3_counterexample_no_checkSession :
  let m := filled ada in
  let m' := exec (handleSubmit containsAt
                    (onSubmit acceptSignUp None routeRefresh))
              m in
  FieldErrors.isEmptyObject
    (yupResolver (schema containsAt) (values (form m))) = true
  /\ fst (acceptSignUp (values (form m)) (world m)) = None
  /\ calls m' = [SetIsPending true; SignUp ada; RouterRefresh]
  /\ ~ In CheckSession (calls m')
  /\ world m' = ["signUp"; "refresh"].
Proof.
  cbv zeta. repeat (split; [reflexivity|]).
  split; [|reflexivity].
  intros [F|[F|[F|[]]]]; discriminate.
Qed.

(** C5 as stated fails on the fresh form, which is reachable and holds no
    contact number; and the list is empty again after a contact number
    has been added and filled in, a second row added and the first row
    removed: the library drops the empty second row before it takes the
    first one out. *)
Lemma C5_counterexample_fresh_form :
  reachable containsAt acceptSignUp (Some sessionRefresh) routeRefresh
    (initial [])
  /\ List.length (contactNumbers (values (form (initial (@nil string))))) = 0
  /\ contactRows (SignUpForm (form (initial (@nil string)))) = []
  /\ run containsAt acceptSignUp (Some sessionRefresh) routeRefresh
       (initial [])
       [ClickAdd; TypeContactNumber 0 "5550100"; ClickAdd; ClickRemove 0]
       (initial []).
Proof.
  split; [exists [], []; constructor|].
  split; [reflexivity|]. split; [reflexivity|].
  apply (run_snoc _ _ _ _ _ _
           [ClickAdd; TypeContactNumber 0 "5550100"; ClickAdd]
           (filled (mkValues "" "" "" "" ["5550100"; ""] false))
           (ClickRemove 0)).
  - apply (run_snoc _ _ _ _ _ _
             [ClickAdd; TypeContactNumber 0 "5550100"]
             (filled (mkValues "" "" "" "" ["5550100"] false)) ClickAdd).
    + apply (run_snoc _ _ _ _ _ _ [ClickAdd]
               (filled (mkValues "" "" "" "" [""] false))
               (TypeContactNumber 0 "5550100")).
      * apply (run_snoc _ _ _ _ _ _ [] (initial []) ClickAdd);
          [apply run_nil|].
        exact (step_add _ _ _ _ _ (initial []) FieldErrors.empty).
      * exact (step_edit _ _ _ _ _ _ (TypeContactNumber 0 "5550100")
                 FieldErrors.empty eq_refl).
    + exact (step_add _ _ _ _ _ _ FieldErrors.empty).
  - apply (step_remove _ _ _ _ _
             (filled (mkValues "" "" "" "" ["5550100"; ""] false)) 0
             (mkContactRow
                (mkFieldView "Contact Number" "5550100" false None) false)
             FieldErrors.empty); reflexivity.
Qed.

(** C5 on Ada's form: with her one contact number no [Remove] takes
    effect; with two, removing the first leaves one. *)
Lemma C5_witness_one_and_two_rows :
  let m' := exec (remove 0 FieldErrors.empty) (filled adaTwoContacts) in
  List.length (contactNumbers (values (form (filled ada)))) = 1
  /\ (forall index m'',
        ~ step containsAt acceptSignUp (Some sessionRefresh) routeRefresh
            (filled ada) (ClickRemove index) m'')
  /\ step containsAt acceptSignUp (Some sessionRefresh) routeRefresh
       (filled adaTwoContacts) (ClickRemove 0) m'
  /\ ~ In "" (contactNumbers (values (form (filled adaTwoContacts))))
  /\ S (List.length (contactNumbers (values (form m'))))
     = List.length (contactNumbers (values (form (filled adaTwoContacts)))).
Proof.
  cbv zeta.
  destruct (C5_remove_disabled_on_last_row containsAt (list string)
              acceptSignUp (Some sessionRefresh) routeRefresh)
    as (_ & H1 & _ & _ & H4).
  assert (step containsAt acceptSignUp (Some sessionRefresh) routeRefresh
            (filled adaTwoContacts) (ClickRemove 0)
            (exec (remove 0 FieldErrors.empty) (filled adaTwoContacts)))
    as S.
  { apply (step_remove _ _ _ _ _ _ 0
             (mkContactRow
                (mkFieldView "Contact Number" "5550100" false None) false));
      reflexivity. }
  assert (~ In "" (contactNumbers (values (form (filled adaTwoContacts)))))
    as N.
  { intros [F|[F|[]]]; discriminate. }
  split; [reflexivity|]. split; [exact (H1 (filled ada) eq_refl)|].
  split; [exact S|]. split; [exact N|exact (H4 _ _ _ S N)].
Defined.



(** C6 on a password of three characters and on one of six. *)
Lemma C6_witness_three_and_six_characters :
  let submit := exec (handleSubmit containsAt
                        (onSubmit acceptSignUp (Some sessionRefresh)
                           routeRefresh)) in
  String.length (password adaShortPassword) < 6
  /\ FieldErrors.password (errors (form (submit (filled adaShortPassword))))
     = Some (mkFieldError "min"
               "Password should need to be at least 6 characters")
  /\ 6 <= String.length (password ada)
  /\ FieldErrors.password (errors (form (submit (filled ada)))) = None.
Proof.
  cbv zeta. split; [cbn; lia|]. split.
  - destruct (C6_short_password_is_reported containsAt (list string)
                acceptSignUp (Some sessionRefresh) routeRefresh
                (filled adaShortPassword)) as (H & _).
    destruct H as (H & _); [discriminate | cbn; lia | exact H].
  - split; [cbn; lia|].
    destruct (C6_short_password_is_reported containsAt (list string)
                acceptSignUp (Some sessionRefresh) routeRefresh
                (filled ada)) as (_ & H).
    apply H. cbn. lia.
Defined.

(** C7 on Ada's form without a contact number. *)
Lemma C7_witness_no_contact_number :
  let m := filled adaNoContact in
  let m' := exec (handleSubmit containsAt
                    (onSubmit acceptSignUp (Some sessionRefresh) routeRefresh))
              m in
  List.length (contactNumbers (values (form m))) < 1
  /\ FieldErrors.arrayRoot (FieldErrors.contactNumbers (errors (form m')))
     = Some (mkFieldError "min" "At least one contact number is required")
  /\ calls m' = [].
Proof.
  cbv zeta.
  assert (List.length (contactNumbers (values (form (filled adaNoContact))))
          < 1) as L by (cbn; lia).
  split; [exact L|].
  destruct (C7_no_contact_number_is_reported containsAt (list string)
              acceptSignUp (Some sessionRefresh) routeRefresh
              (filled adaNoContact) L) as (H & _ & Hc).
  split; [exact H|exact Hc].
Defined.

(** C8 on Ada's form when the sign-up is accepted. *)
Lemma C8_witness_accepted_sign_up :
  let m := filled ada in
  let m' := exec (handleSubmit containsAt
                    (onSubmit acceptSignUp (Some sessionRefresh) routeRefresh))
              m in
  FieldErrors.isEmptyObject
    (yupResolver (schema containsAt) (values (form m))) = true
  /\ (exists rest,
        calls m' = SetIsPending true :: SignUp ada :: rest
        /\ ~ In (SetIsPending false) rest)
  /\ isPending (form m') = true
  /\ values (form m') = ada.
Proof.
  cbv zeta. split; [reflexivity|].
  destruct (C8_pending_set_first_and_kept_on_success containsAt (list string)
              acceptSignUp (Some sessionRefresh) routeRefresh (filled ada)
              eq_refl) as (rest & Hc & Hv & Hs).
  destruct (Hs eq_refl) as (Hp & Hn & _).
  split; [exists rest; split; [exact Hc|exact Hn]|].
  split; [exact Hp|exact Hv].
Defined.

(** C10 after typing a first name into the fresh form: still no row. *)
Lemma C10_witness_typing_adds_no_row :
  let m := mkMachine
             (mkFormState (edit (TypeFirstName "Ada") defaultValues)
                FieldErrors.empty false)
             (@nil string) [] in
  ~ In ClickAdd [TypeFirstName "Ada"]
  /\ contactRows (SignUpForm (form m)) = [].
Proof.
  cbv zeta.
  assert (~ In ClickAdd [TypeFirstName "Ada"]) as N.
  { intros [F|[]]. discriminate. }
  split; [exact N|].
  destruct (C10_fresh_form_has_no_contact_number containsAt (list string)
              acceptSignUp (Some sessionRefresh) routeRefresh)
    as (_ & _ & _ & _ & _ & _ & _ & H & _).
  apply (H [] [TypeFirstName "Ada"]); [|exact N].
  exact (run_snoc containsAt (list string) acceptSignUp
           (Some sessionRefresh) routeRefresh (initial []) [] (initial [])
           (TypeFirstName "Ada") _ (run_nil _ _ _ _ _ _)
           (step_edit _ _ _ _ _ (initial []) (TypeFirstName "Ada")
              FieldErrors.empty eq_refl)).
Defined.

(** Ada fills the fresh form in. *)
Lemma ada_filled_is_reachable :
  run containsAt acceptSignUp (Some sessionRefresh) routeRefresh
    (initial [])
    [TypeFirstName "Ada"; TypeLastName "Lovelace";
     TypeEmail "ada@example.org"; TypePassword "engine"; CheckTerms true;
     ClickAdd; TypeContactNumber 0 "5550100"]
    (filled ada).
Proof.
  apply (run_snoc _ _ _ _ _ _
           [TypeFirstName "Ada"; TypeLastName "Lovelace";
            TypeEmail "ada@example.org"; TypePassword "engine";
            CheckTerms true; ClickAdd]
           (filled adaBlankContact) (TypeContactNumber 0 "5550100"));
    [|exact (step_edit _ _ _ _ _ _ (TypeContactNumber 0 "5550100")
               FieldErrors.empty eq_refl)].
  apply (run_snoc _ _ _ _ _ _
           [TypeFirstName "Ada"; TypeLastName "Lovelace";
            TypeEmail "ada@example.org"; TypePassword "engine";
            CheckTerms true]
           (filled adaNoContact) ClickAdd);
    [|exact (step_add _ _ _ _ _ (filled adaNoContact) FieldErrors.empty)].
  apply (run_snoc _ _ _ _ _ _
           [TypeFirstName "Ada"; TypeLastName "Lovelace";
            TypeEmail "ada@example.org"; TypePassword "engine"]
           (filled (edit (CheckTerms false) adaNoContact))
           (CheckTerms true));
    [|exact (step_edit _ _ _ _ _ _ (CheckTerms true)
               FieldErrors.empty eq_refl)].
  apply (run_snoc _ _ _ _ _ _
           [TypeFirstName "Ada"; TypeLastName "Lovelace";
            TypeEmail "ada@example.org"]
           (filled (mkValues "Ada" "Lovelace" "ada@example.org" "" [] false))
           (TypePassword "engine"));
    [|exact (step_edit _ _ _ _ _ _ (TypePassword "engine")
               FieldErrors.empty eq_refl)].
  apply (run_snoc _ _ _ _ _ _
           [TypeFirstName "Ada"; TypeLastName "Lovelace"]
           (filled (mkValues "Ada" "Lovelace" "" "" [] false))
           (TypeEmail "ada@example.org"));
    [|exact (step_edit _ _ _ _ _ _ (TypeEmail "ada@example.org")
               FieldErrors.empty eq_refl)].
  apply (run_snoc _ _ _ _ _ _
           [TypeFirstName "Ada"]
           (filled (mkValues "Ada" "" "" "" [] false))
           (TypeLastName "Lovelace"));
    [|exact (step_edit _ _ _ _ _ _ (TypeLastName "Lovelace")
               FieldErrors.empty eq_refl)].
  apply (run_snoc _ _ _ _ _ _ [] (initial []) (TypeFirstName "Ada"));
    [apply run_nil|].
  exact (step_edit _ _ _ _ _ _ (TypeFirstName "Ada")
           FieldErrors.empty eq_refl).
Qed.

(** The state after Ada has submitted and the collaborators have
    settled. *)
Lemma ada_submitted_is_reachable :
  reachable containsAt acceptSignUp (Some sessionRefresh) routeRefresh
    (exec (handleSubmit containsAt
             (onSubmit acceptSignUp (Some sessionRefresh) routeRefresh))
       (filled ada)).
Proof.
  exists [],
    [TypeFirstName "Ada"; TypeLastName "Lovelace";
     TypeEmail "ada@example.org"; TypePassword "engine"; CheckTerms true;
     ClickAdd; TypeContactNumber 0 "5550100"; ClickSubmit].
  apply (run_snoc _ _ _ _ _ _ _ (filled ada) ClickSubmit
           _ ada_filled_is_reachable).
  apply step_submit. reflexivity.
Qed.

(** The state after Ada has submitted, while the sign-up is awaited. *)
Lemma ada_in_flight_is_reachable :
  reachable containsAt acceptSignUp (Some sessionRefresh) routeRefresh
    (exec (handleSubmit containsAt onSubmit_start) (filled ada)).
Proof.
  exists [],
    [TypeFirstName "Ada"; TypeLastName "Lovelace";
     TypeEmail "ada@example.org"; TypePassword "engine"; CheckTerms true;
     ClickAdd; TypeContactNumber 0 "5550100"; ClickSubmit].
  apply (run_snoc _ _ _ _ _ _ _ (filled ada) ClickSubmit
           _ ada_filled_is_reachable).
  apply step_submit_starts. reflexivity.
Qed.

(** X1 when Ada fills the fresh form in and submits it: the state after
    the submission is reachable, and the one sign-up call it has made
    carries values the schema accepts. *)
Lemma signUp_only_after_validation_witness :
  let m := exec (handleSubmit containsAt
                   (onSubmit acceptSignUp (Some sessionRefresh) routeRefresh))
             (filled ada) in
  reachable containsAt acceptSignUp (Some sessionRefresh) routeRefresh m
  /\ In (SignUp ada) (calls m)
  /\ FieldErrors.isEmptyObject (yupResolver (schema containsAt) ada) = true.
Proof.
  cbv zeta.
  assert (In (SignUp ada)
            (calls (exec (handleSubmit containsAt
                            (onSubmit acceptSignUp (Some sessionRefresh)
                               routeRefresh))
                      (filled ada)))) as I.
  { right. left. reflexivity. }
  split; [exact ada_submitted_is_reachable|]. split; [exact I|].
  exact (signUp_only_after_validation containsAt (list string) acceptSignUp
           (Some sessionRefresh) routeRefresh _ ada_submitted_is_reachable
           ada I).
Defined.

(** X4 on Ada's form without a contact number. *)
Lemma empty_contact_list_shows_no_message_witness :
  let m := filled adaNoContact in
  let m' := exec (handleSubmit containsAt
                    (onSubmit acceptSignUp (Some sessionRefresh) routeRefresh))
              m in
  contactNumbers (values (form m)) = []
  /\ calls m' = []
  /\ contactRows (SignUpForm (form m')) = []
  /\ alert (SignUpForm (form m')) = None
  /\ FieldErrors.isEmptyObject (errors (form m')) = false.
Proof.
  cbv zeta. split; [reflexivity|].
  destruct (empty_contact_list_shows_no_message containsAt (list string)
              acceptSignUp (Some sessionRefresh) routeRefresh
              (filled adaNoContact))
    as (Hc & He & _ & _ & _ & _ & Hr & _ & Ha);
    try reflexivity; try discriminate.
  split; [exact Hc|]. split; [exact Hr|]. split; [exact Ha|exact He].
Defined.

(** X5 on Ada's form with a second, empty contact number. *)
Lemma contact_rows_after_submission_witness :
  let m' := exec (handleSubmit containsAt
                    (onSubmit acceptSignUp (Some sessionRefresh) routeRefresh))
              (filled adaEmptyContact) in
  let row := mkContactRow
               (mkFieldView "Contact Number" "" true
                  (Some "Contact number is required"))
               false in
  nth_error (contactRows (SignUpForm (form m'))) 1 = Some row
  /\ nth_error (contactNumbers adaEmptyContact) 1
     = Some (value (contactInput row))
  /\ helperText (contactInput row) = Some "Contact number is required".
Proof.
  cbv zeta. split; [reflexivity|].
  destruct (contact_rows_after_submission containsAt (list string)
              acceptSignUp (Some sessionRefresh) routeRefresh
              (filled adaEmptyContact) 1
              (mkContactRow
                 (mkFieldView "Contact Number" "" true
                    (Some "Contact number is required"))
                 false) eq_refl) as (Hn & Hh & _).
  split; [exact Hn|exact Hh].
Defined.

(** X7 on Ada's form without a last name. *)
Lemma invalid_submission_is_idempotent_witness :
  let submit := exec (handleSubmit containsAt
                        (onSubmit acceptSignUp (Some sessionRefresh)
                           routeRefresh)) in
  listedFailure containsAt (values (form (filled adaNoLastName)))
  /\ submit (submit (filled adaNoLastName)) = submit (filled adaNoLastName).
Proof.
  cbv zeta.
  assert (listedFailure containsAt (values (form (filled adaNoLastName))))
    as L.
  { right. left. reflexivity. }
  split; [exact L|].
  exact (invalid_submission_is_idempotent containsAt (list string)
           acceptSignUp (Some sessionRefresh) routeRefresh
           (filled adaNoLastName) L).
Defined.

(** X9 while Ada's sign-up is awaited: the button is disabled, no route
    refresh has been requested and no click on submit takes effect. *)
Lemma route_refresh_is_last_and_locks_the_form_witness :
  let m := exec (handleSubmit containsAt onSubmit_start) (filled ada) in
  reachable containsAt acceptSignUp (Some sessionRefresh) routeRefresh m
  /\ lastCall m = Some (SignUp ada)
  /\ calls m = [SetIsPending true; SignUp ada]
  /\ submitDisabled (SignUpForm (form m)) = true
  /\ (forall m',
        ~ step containsAt acceptSignUp (Some sessionRefresh) routeRefresh
            m ClickSubmit m').
Proof.
  cbv zeta. split; [exact ada_in_flight_is_reachable|].
  split; [reflexivity|]. split; [reflexivity|].
  destruct (route_refresh_is_last_and_locks_the_form containsAt
              (list string) acceptSignUp (Some sessionRefresh) routeRefresh
              _ ada_in_flight_is_reachable) as (Hd & _ & Hs).
  assert (submitDisabled
            (SignUpForm
               (form (exec (handleSubmit containsAt onSubmit_start)
                        (filled ada)))) = true) as D.
  { apply Hd. left. exists ada. reflexivity. }
  split; [exact D|exact (Hs D)].
Defined.

(** X10 on Ada's form with two contact numbers: removing the first. *)
Lemma remove_takes_out_one_row_witness :
  let m := filled adaTwoContacts in
  let m' := exec (remove 0 FieldErrors.empty) m in
  step containsAt acceptSignUp (Some sessionRefresh) routeRefresh
    m (ClickRemove 0) m'
  /\ contactNumbers (values (form m')) = ["5550101"]
  /\ firstName (values (form m')) = "Ada"
  /\ calls m' = [].
Proof.
  cbv zeta.
  assert (step containsAt acceptSignUp (Some sessionRefresh) routeRefresh
            (filled adaTwoContacts) (ClickRemove 0)
            (exec (remove 0 FieldErrors.empty) (filled adaTwoContacts)))
    as S.
  { apply (step_remove _ _ _ _ _ _ 0
             (mkContactRow
                (mkFieldView "Contact Number" "5550100" false None) false));
      reflexivity. }
  split; [exact S|].
  destruct (remove_takes_out_one_row containsAt (list string) acceptSignUp
              (Some sessionRefresh) routeRefresh _ 0 _ S)
    as (_ & _ & Hc & _ & Hf & _ & _ & _ & _ & _ & Hl).
  split; [exact Hc|]. split; [exact Hf|exact Hl].
Defined.

(** X11 on Ada's form: a second row is added and removed again. *)
Lemma add_then_remove_restores_values_witness :
  let m1 := exec (append "" FieldErrors.empty) (filled ada) in
  let m2 := exec (remove 1 FieldErrors.empty) m1 in
  step containsAt acceptSignUp (Some sessionRefresh) routeRefresh
    (filled ada) ClickAdd m1
  /\ 1 <= List.length (contactNumbers (values (form (filled ada))))
  /\ ~ In "" (contactNumbers (values (form (filled ada))))
  /\ step containsAt acceptSignUp (Some sessionRefresh) routeRefresh
       m1 (ClickRemove 1) m2
  /\ values (form m2) = ada.
Proof.
  cbv zeta.
  assert (step containsAt acceptSignUp (Some sessionRefresh) routeRefresh
            (filled ada) ClickAdd
            (exec (append "" FieldErrors.empty) (filled ada))) as S.
  { exact (step_add _ _ _ _ _ (filled ada) FieldErrors.empty). }
  assert (1 <= List.length (contactNumbers (values (form (filled ada)))))
    as L by (cbn; lia).
  assert (~ In "" (contactNumbers (values (form (filled ada))))) as N.
  { intros [F|[]]; discriminate. }
  assert (step containsAt acceptSignUp (Some sessionRefresh) routeRefresh
            (exec (append "" FieldErrors.empty) (filled ada)) (ClickRemove 1)
            (exec (remove 1 FieldErrors.empty)
               (exec (append "" FieldErrors.empty) (filled ada)))) as S2.
  { apply (step_remove _ _ _ _ _ _ 1
             (mkContactRow (mkFieldView "Contact Number" "" false None)
                false));
      reflexivity. }
  split; [exact S|]. split; [exact L|]. split; [exact N|].
  split; [exact S2|].
  exact (proj2 (add_then_remove_restores_values containsAt (list string)
                  acceptSignUp (Some sessionRefresh) routeRefresh
                  _ _ S L N) _ S2).
Defined.

(** X12 on Ada's form with a sign-up that fails once. *)
Lemma failed_sign_up_then_retry_witness :
  let submit := exec (handleSubmit containsAt
                        (onSubmit flakySignUp (Some sessionRefresh)
                           routeRefresh)) in
  FieldErrors.isEmptyObject (yupResolver (schema containsAt) ada) = true
  /\ alert (SignUpForm (form (submit (filled ada))))
     = Some "Service unavailable"
  /\ alert (SignUpForm (form (submit (submit (filled ada))))) = None
  /\ calls (submit (submit (filled ada)))
     = [SetIsPending true; SignUp ada;
        SetErrorRoot (mkFieldError "server" "Service unavailable");
        SetIsPending false;
        SetIsPending true; SignUp ada; CheckSession; RouterRefresh].
Proof.
  cbv zeta. split; [reflexivity|].
  destruct (failed_sign_up_then_retry containsAt (list string) flakySignUp
              (Some sessionRefresh) routeRefresh (filled ada)
              "Service unavailable" eq_refl eq_refl eq_refl)
    as (H1 & _ & H2 & _ & Hc).
  split; [exact H1|]. split; [exact H2|exact Hc].
Defined.
